(** * The authentication gateway of dudoxx-convex-frontend

    A shallow embedding of the request-handling code of the repository:
    the security middleware ([src/app/api/auth/middleware.ts]), the
    in-memory account store ([mock-store.ts]), the login and register
    route handlers, the Convex backend functions ([convex/*.ts]) and the
    reference implementations printed in the security guide
    ([CLAUDE_security.md]: [validateRequest] with [deepSanitize],
    [RateLimiter], [SecurityLogger.maskEmail]).

    Conventions of the embedding:
    - a JavaScript string is a [string]; one character stands for one
      UTF-16 code unit in the range 0..255 (ASCII and Latin-1);
    - [Date.now()] and [Math.random()] are inputs of the functions
      that read them;
    - module-level mutable variables ([users], [authLogs], the
      [requests] map of the rate limiter) are threaded explicitly. *)

From Stdlib Require Import ZArith String Ascii DecimalString.
From stdpp Require Import base list strings gmap.

Local Open Scope string_scope.
Local Open Scope Z_scope.

(** ** JavaScript strings *)

Module JS.

(** Code unit of a character. *)
Definition code (c : ascii) : N := N_of_ascii c.

(** ECMAScript [WhiteSpace] and [LineTerminator] code units below 256:
    TAB, LF, VT, FF, CR, SPACE and NO-BREAK SPACE.  This is the set
    removed by [String.prototype.trim] and matched by [\s]. *)
Definition isWhiteSpace (c : ascii) : bool :=
  let n := code c in
  ((9 <=? n) && (n <=? 13) || (n =? 32) || (n =? 160))%N.

(** [String.prototype.toLowerCase] on one code unit below 256:
    A-Z and the Latin-1 capitals U+00C0..U+00DE (without the
    multiplication sign U+00D7) move up by 32. *)
Definition lowerChar (c : ascii) : ascii :=
  let n := code c in
  if ((65 <=? n) && (n <=? 90)
      || (192 <=? n) && (n <=? 222) && negb (n =? 215))%N
  then ascii_of_N (n + 32) else c.

Fixpoint toLowerCase (s : string) : string :=
  match s with
  | EmptyString => EmptyString
  | String c r => String (lowerChar c) (toLowerCase r)
  end.

Fixpoint trimStart (s : string) : string :=
  match s with
  | EmptyString => EmptyString
  | String c r => if isWhiteSpace c then trimStart r else s
  end.

Fixpoint trimEnd (s : string) : string :=
  match s with
  | EmptyString => EmptyString
  | String c r =>
      match trimEnd r with
      | EmptyString => if isWhiteSpace c then EmptyString else String c EmptyString
      | r' => String c r'
      end
  end.

(** [s.trim()] *)
Definition trim (s : string) : string := trimEnd (trimStart s).

(** [s.slice(0, n)] and [s.substring(0, n)] for a literal [n >= 0]:
    the first [n] code units, or all of [s] when it is shorter. *)
Fixpoint slice0 (n : nat) (s : string) : string :=
  match n, s with
  | S n', String c r => String c (slice0 n' r)
  | _, _ => EmptyString
  end.

(** [s.startsWith(p)] *)
Definition startsWith (s p : string) : bool := String.prefix p s.

(** [s.split(sep)] for a one-character separator; the result is never
    empty. *)
Fixpoint split (sep : ascii) (s : string) : list string :=
  match s with
  | EmptyString => [EmptyString]
  | String c r =>
      if Ascii.eqb c sep then EmptyString :: split sep r
      else match split sep r with
           | p :: ps => String c p :: ps
           | [] => [String c EmptyString]
           end
  end.

(** [parts.join(sep)] for a one-character separator. *)
Fixpoint join (sep : ascii) (parts : list string) : string :=
  match parts with
  | [] => EmptyString
  | [p] => p
  | p :: ps => p +:+ String sep (join sep ps)
  end.

Fixpoint existsChar (f : ascii -> bool) (s : string) : bool :=
  match s with
  | EmptyString => false
  | String c r => f c || existsChar f r
  end.

(** Only white space. *)
Definition blank (s : string) : Prop :=
  existsChar (fun c => negb (isWhiteSpace c)) s = false.

(** Decimal rendering of an array index, as in the keys of
    [Object.entries(array)]. *)
Definition indexKey (i : nat) : string := NilZero.string_of_uint (Nat.to_uint i).

(** Decimal rendering of an integer, as in a template literal. *)
Definition numberToString (z : Z) : string := NilZero.string_of_int (Z.to_int z).

(** *** Parsed JSON values

    What [request.json()] yields.  An object lists its own properties
    in property order; numbers are kept as integers (the handlers only
    test them for truthiness). *)
#[warnings="-register-all"]
Inductive json : Type :=
| JNull
| JBool (b : bool)
| JNum (n : Z)
| JStr (s : string)
| JArr (items : list json)
| JObj (fields : list (string * json)).

(** [obj[key]] on own properties; [None] is [undefined]. *)
Fixpoint getProp (key : string) (fields : list (string * json)) : option json :=
  match fields with
  | [] => None
  | (k, v) :: r => if String.eqb k key then Some v else getProp key r
  end.

(** [delete obj[key]] *)
Definition deleteProp (key : string) (fields : list (string * json)) : list (string * json) :=
  List.filter (fun kv => negb (String.eqb (fst kv) key)) fields.

(** Index-keyed entries of an array, starting at index [i]. *)
Fixpoint arrayEntries (i : nat) (items : list json) : list (string * json) :=
  match items with
  | [] => []
  | v :: r => (indexKey i, v) :: arrayEntries (S i) r
  end.

(** [Object.entries(v)], also the own enumerable properties copied by
    the spread [{...v}], for an object or an array. *)
Definition entries (v : json) : list (string * json) :=
  match v with
  | JObj fields => fields
  | JArr items => arrayEntries 0 items
  | _ => []
  end.

(** Truthiness of a possibly absent property ([!x] is its negation). *)
Definition truthy (x : option json) : bool :=
  match x with
  | None | Some JNull => false
  | Some (JBool b) => b
  | Some (JNum n) => negb (n =? 0)
  | Some (JStr s) => negb (String.eqb s EmptyString)
  | Some (JArr _) | Some (JObj _) => true
  end.

(** Truthiness of a header value ([string | null]). *)
Definition truthyStr (x : option string) : bool :=
  match x with
  | Some s => negb (String.eqb s EmptyString)
  | None => false
  end.

End JS.

(** ** The security middleware, [src/app/api/auth/middleware.ts] *)

Module Middleware.
Import JS.

Inductive ValidationResult : Type :=
| Invalid (error : string)            (* { isValid: false, error } *)
| Valid (data : json).                (* { isValid: true, data } *)

(** [validateRequest(body)]: a shallow copy of the body without its
    own top-level [__proto__], [constructor] and [prototype]. *)
Definition validateRequest (body : json) : ValidationResult :=
  match body with
  | JObj _ | JArr _ =>
      let sanitized := entries body in
      let sanitized := deleteProp "__proto__" sanitized in
      let sanitized := deleteProp "constructor" sanitized in
      let sanitized := deleteProp "prototype" sanitized in
      Valid (JObj sanitized)
  | _ => Invalid "Invalid request format"
  end.

Record RateLimitResult := { allowed : bool }.

(** [rateLimit()]: the placeholder of the middleware. *)
Definition rateLimit (_ : unit) : RateLimitResult := {| allowed := true |}.

(** The two headers read by [validateOrigin]; [None] is the [null]
    that [headers.get] returns for a missing header. *)
Record Headers := { origin : option string; referer : option string }.

(** [process.env] as far as the middleware reads it. *)
Record Env := { NODE_ENV : option string; NEXT_PUBLIC_APP_URL : option string }.

Definition isLocalhost (s : string) : bool :=
  startsWith s "http://localhost:" || startsWith s "http://127.0.0.1:".

(** [allowedOrigins.includes(origin)] for a string [origin]. *)
Definition includes (allowedOrigins : list (option string)) (o : string) : bool :=
  existsb (fun allowed =>
             match allowed with
             | Some a => String.eqb o a
             | None => false
             end) allowedOrigins.

(** [allowed || ''] *)
Definition orEmpty (allowed : option string) : string :=
  match allowed with
  | Some a => a
  | None => EmptyString
  end.

Definition validateOrigin (env : Env) (h : Headers) : bool :=
  let isDevelopment := negb (bool_decide (NODE_ENV env = Some "production")) in
  if isDevelopment then
    if truthyStr (origin h) && isLocalhost (default EmptyString (origin h)) then true
    else if truthyStr (referer h) && isLocalhost (default EmptyString (referer h)) then true
    else negb (truthyStr (origin h))
  else
    let allowedOrigins := [NEXT_PUBLIC_APP_URL env; Some "http://localhost:3000"] in
    if truthyStr (origin h) && includes allowedOrigins (default EmptyString (origin h)) then true
    else if truthyStr (referer h)
            && existsb (fun allowed => startsWith (default EmptyString (referer h)) (orEmpty allowed))
                       allowedOrigins
         then true
    else negb (truthyStr (origin h)).

End Middleware.

(** ** The in-memory account store, [src/app/api/auth/mock-store.ts] *)

Module MockAuthStore.
Import JS.

Record User := {
  id : string;
  name : string;
  email : string;
  password : string;        (* the plain text, as the mock keeps it *)
  createdAt : Z             (* the instant of [new Date()], in ms *)
}.

Record AuthLog := {
  log_id : string;
  action : string;
  userId : string;
  log_email : string;
  success : bool;
  timestamp : Z
}.

(** The module-level variables [users] and [authLogs]; [push] appends. *)
Record Store := { users : list User; authLogs : list AuthLog }.

(** One reading of the clock and of [Math.random()], from which an
    identifier is built; [random] is the text of
    [Math.random().toString(36).substring(7)]. *)
Record Tick := { now : Z; random : string }.

Definition freshId (tag : string) (t : Tick) : string :=
  tag +:+ "_" +:+ numberToString (now t) +:+ "_" +:+ random t.

Definition findUserByEmail (e : string) (st : Store) : option User :=
  List.find (fun user => String.eqb (email user) e) (users st).

Definition logAuthEvent (t : Tick) (act uid e : string) (ok : bool) (st : Store) : Store :=
  let log := {| log_id := freshId "log" t; action := act; userId := uid;
                log_email := e; success := ok; timestamp := now t |} in
  {| users := users st; authLogs := authLogs st ++ [log] |}.

Definition createUser (tu tl : Tick) (n e p : string) (st : Store) : User * Store :=
  let user := {| id := freshId "user" tu; name := n; email := e;
                 password := p; createdAt := now tu |} in
  let st := {| users := users st ++ [user]; authLogs := authLogs st |} in
  (user, logAuthEvent tl "user_registration" (id user) (email user) true st).

Definition authenticateUser (t : Tick) (e p : string) (st : Store) : option User * Store :=
  match findUserByEmail e st with
  | Some user =>
      if String.eqb (password user) p
      then (Some user, logAuthEvent t "user_login" (id user) (email user) true st)
      else (None, logAuthEvent t "user_login_failed" EmptyString e false st)
  | None => (None, logAuthEvent t "user_login_failed" EmptyString e false st)
  end.

(** [getAuthLogs(userId?)]; [None] is a call without argument. *)
Definition getAuthLogs (uid : option string) (st : Store) : list AuthLog :=
  if truthyStr uid
  then filter (fun log => userId log = default EmptyString uid) (authLogs st)
  else authLogs st.

Definition empty : Store := {| users := []; authLogs := [] |}.

(** The store after the module is loaded: the test user is created. *)
Definition initial (tu tl : Tick) : Store :=
  snd (createUser tu tl "Test User" "test@example.com" "testpass123" empty).

End MockAuthStore.

(** ** The route handlers, [src/app/api/auth/*/route.ts] *)

Module Http.
Import JS.

(** [NextResponse.json(body, { status })] *)
Record Response := { status : Z; body : json }.

Definition errorResponse (code : Z) (message : string) : Response :=
  {| status := code; body := JObj [("error", JStr message)] |}.

(** The response to a failed login. *)
Definition invalidCredentials : Response :=
  errorResponse 401 "Invalid email or password".

(** A request as the handlers see it: its headers and the outcome of
    [request.json()], [None] when the body does not parse. *)
Record Request := { headers : Middleware.Headers; json_body : option json }.

(** [/^[^\s@]+@[^\s@]+\.[^\s@]+$/.test(s)]: one [@], no white space,
    a non-empty local part, and after the [@] a dot with at least one
    character on each side. *)
Fixpoint dotBeforeLast (s : string) : bool :=
  match s with
  | String c ((String _ _) as r) => Ascii.eqb c "." || dotBeforeLast r
  | _ => false
  end.

Definition innerDot (s : string) : bool :=
  match s with
  | String _ r => dotBeforeLast r
  | EmptyString => false
  end.

Definition emailRegex_test (s : string) : bool :=
  match split "@" s with
  | [a; d] =>
      negb (String.eqb a EmptyString)
      && negb (existsChar isWhiteSpace a)
      && negb (existsChar isWhiteSpace d)
      && innerDot d
  | _ => false
  end.

(** The same pattern read as a grammar: three non-empty runs of
    characters other than white space and [@], joined by [@] and by a
    dot. *)
Definition token (s : string) : Prop :=
  s <> EmptyString /\ existsChar (fun c => isWhiteSpace c || Ascii.eqb "@" c) s = false.

Definition matchesEmailPattern (s : string) : Prop :=
  exists a b c, s = a +:+ "@" +:+ b +:+ "." +:+ c /\ token a /\ token b /\ token c.

End Http.

Module LoginRoute.
Import JS Http.

(** [POST(request)] of [login/route.ts].  A truthy [email] or
    [password] that is not a string is outside the embedding ([None]):
    the handler then depends on coercions of arbitrary values. *)
Definition POST (env : Middleware.Env) (request : Request) (t : MockAuthStore.Tick)
    (st : MockAuthStore.Store) : option (Response * MockAuthStore.Store) :=
  if negb (Middleware.validateOrigin env (headers request)) then
    Some (errorResponse 403 "Invalid origin", st)
  else if negb (Middleware.allowed (Middleware.rateLimit tt)) then
    Some (errorResponse 429 "Too many requests", st)
  else
    match json_body request with
    | None => Some (errorResponse 500 "Internal server error", st)
    | Some rawBody =>
        match Middleware.validateRequest rawBody with
        | Middleware.Invalid e => Some (errorResponse 400 e, st)
        | Middleware.Valid data =>
            let email := getProp "email" (entries data) in
            let password := getProp "password" (entries data) in
            if negb (truthy email) || negb (truthy password) then
              Some (errorResponse 400 "Email and password are required", st)
            else
              match email, password with
              | Some (JStr email), Some (JStr password) =>
                  if negb (emailRegex_test email) then
                    Some (errorResponse 400 "Invalid email format", st)
                  else
                    match MockAuthStore.authenticateUser t (trim (toLowerCase email)) password st with
                    | (None, st') =>
                        Some (errorResponse 401 "Invalid email or password", st')
                    | (Some user, st') =>
                        Some ({| status := 200;
                                 body := JObj [("success", JBool true);
                                               ("message", JStr "Login successful");
                                               ("sessionId", JStr (MockAuthStore.id user));
                                               ("user", JObj [("name", JStr (MockAuthStore.name user));
                                                              ("email", JStr (MockAuthStore.email user))])] |},
                              st')
                    end
              | _, _ => None
              end
        end
    end.

(** Requests handled one after the other: the responses in order and
    the store at the end.  The run stops at a request outside the
    embedding. *)
Fixpoint serve (env : Middleware.Env) (reqs : list (Request * MockAuthStore.Tick))
    (st : MockAuthStore.Store) : list Response * MockAuthStore.Store :=
  match reqs with
  | [] => ([], st)
  | (request, t) :: rest =>
      match POST env request t st with
      | Some (response, st') =>
          let (responses, st'') := serve env rest st' in
          (response :: responses, st'')
      | None => ([], st)
      end
  end.

(** The text of the server-side log line of a failed login. *)
Definition failedLoginLine (email : string) : string :=
  "Failed login attempt for email: " +:+ slice0 3 email +:+ "***".

End LoginRoute.

Module RegisterRoute.
Import JS Http.

(** [POST(request)] of [register/route.ts]; [tu] and [tl] feed the
    identifiers of the new user and of its log entry.  A truthy
    [email] or [password] that is not a string is outside the
    embedding ([None]); a truthy [name] that is not a string makes
    [name.trim()] throw inside the inner [try], hence the 503. *)
Definition POST (env : Middleware.Env) (request : Request) (tu tl : MockAuthStore.Tick)
    (st : MockAuthStore.Store) : option (Response * MockAuthStore.Store) :=
  if negb (Middleware.validateOrigin env (headers request)) then
    Some (errorResponse 403 "Invalid origin", st)
  else if negb (Middleware.allowed (Middleware.rateLimit tt)) then
    Some (errorResponse 429 "Too many requests", st)
  else
    match json_body request with
    | None => Some (errorResponse 500 "Internal server error", st)
    | Some rawBody =>
        match Middleware.validateRequest rawBody with
        | Middleware.Invalid e => Some (errorResponse 400 e, st)
        | Middleware.Valid data =>
            let name := getProp "name" (entries data) in
            let email := getProp "email" (entries data) in
            let password := getProp "password" (entries data) in
            if negb (truthy name) || negb (truthy email) || negb (truthy password) then
              Some (errorResponse 400 "Missing required fields: name, email, password", st)
            else
              match password, email with
              | Some (JStr password), Some (JStr email) =>
                  if (String.length password <? 8)%nat then
                    Some (errorResponse 400 "Password must be at least 8 characters long", st)
                  else if negb (emailRegex_test email) then
                    Some (errorResponse 400 "Invalid email format", st)
                  else
                    match MockAuthStore.findUserByEmail (trim (toLowerCase email)) st with
                    | Some existingUser =>
                        Some (errorResponse 409 "User with this email already exists", st)
                    | None =>
                        match name with
                        | Some (JStr name) =>
                            let (newUser, st') :=
                              MockAuthStore.createUser tu tl (trim name)
                                (trim (toLowerCase email)) password st in
                            Some ({| status := 201;
                                     body := JObj [("success", JBool true);
                                                   ("message", JStr "Account created successfully");
                                                   ("sessionId", JStr (MockAuthStore.id newUser))] |},
                                  st')
                        | _ =>
                            Some (errorResponse 503 "Registration service temporarily unavailable", st)
                        end
                    end
              | _, _ => None
              end
        end
    end.

End RegisterRoute.

(** ** The reference implementations of the security guide,
       [CLAUDE_security.md] *)

Module SecurityGuide.
Import JS.

(** [['__proto__', 'constructor', 'prototype'].includes(key)] *)
Definition dangerous (key : string) : bool :=
  String.eqb key "__proto__" || String.eqb key "constructor" || String.eqb key "prototype".

(** The body of the loop of [deepSanitize] for one value, given the
    function [rec] for the recursive call. *)
Definition sanitizeValue (rec : json -> json) (value : json) : json :=
  match value with
  | JStr s => JStr (slice0 1000 (trim s))
  | JNull | JArr _ | JObj _ => rec value        (* typeof value === 'object' *)
  | JBool _ | JNum _ => value
  end.

(** [deepSanitize(obj)]: the loop runs over [Object.entries(obj)], that
    is over the fields of an object or the indexed items of an array,
    and fills a fresh object. *)
Fixpoint deepSanitize (obj : json) : json :=
  match obj with
  | JObj fields =>
      JObj ((fix loop (fs : list (string * json)) : list (string * json) :=
               match fs with
               | [] => []
               | (key, value) :: r =>
                   if dangerous key then loop r
                   else (key, sanitizeValue deepSanitize value) :: loop r
               end) fields)
  | JArr items =>
      JObj ((fix loop (i : nat) (vs : list json) : list (string * json) :=
               match vs with
               | [] => []
               | value :: r =>
                   if dangerous (indexKey i) then loop (S i) r
                   else (indexKey i, sanitizeValue deepSanitize value) :: loop (S i) r
               end) 0%nat items)
  | _ => obj
  end.

(** [validateRequest(body)] of the guide. *)
Definition validateRequest (body : json) : Middleware.ValidationResult :=
  match body with
  | JObj _ | JArr _ =>
      let sanitized := entries body in
      let sanitized := deleteProp "__proto__" sanitized in
      let sanitized := deleteProp "constructor" sanitized in
      let sanitized := deleteProp "prototype" sanitized in
      Middleware.Valid (deepSanitize (JObj sanitized))
  | _ => Middleware.Invalid "Invalid request format"
  end.

(** *** [RateLimiter] and the part of [SecurityLogger] it calls *)

(** An entry written by [SecurityLogger.logSuspiciousActivity]. *)
Record SuspiciousActivity := {
  sa_timestamp : Z;
  sa_type : string;
  sa_severity : string;
  sa_ip : string;
  sa_requestCount : nat;
  sa_threshold : Z
}.

(** The static [requests] map of the class and the lines handed to
    [storeSecurityLog]. *)
Record LimiterState := {
  requests : gmap string (list Z);
  securityLog : list SuspiciousActivity
}.

Definition logRateLimit (now : Z) (identifier : string) (requestCount : nat)
    (st : LimiterState) : LimiterState :=
  {| requests := requests st;
     securityLog := securityLog st ++
       [{| sa_timestamp := now; sa_type := "rate_limit_exceeded"; sa_severity := "medium";
           sa_ip := identifier; sa_requestCount := requestCount; sa_threshold := 10 |}] |}.

(** [RateLimiter.isAllowed(identifier, windowMs, maxRequests)] called
    when [Date.now()] is [now]. *)
Definition isAllowed (now : Z) (identifier : string) (windowMs maxRequests : Z)
    (st : LimiterState) : bool * LimiterState :=
  let windowStart := now - windowMs in
  let reqs : list Z := default [] (requests st !! identifier) in
  let reqs := filter (fun timestamp => windowStart < timestamp) reqs in
  if bool_decide (maxRequests <= Z.of_nat (List.length reqs)) then
    (false, logRateLimit now identifier (List.length reqs) st)
  else
    (true, {| requests := <[identifier := (reqs ++ [now])%list]> (requests st);
              securityLog := securityLog st |}).

(** The default arguments of [isAllowed]. *)
Definition defaultWindowMs : Z := 900000.
Definition defaultMaxRequests : Z := 10.

(** [RateLimiter.cleanup()] called when [Date.now()] is [now]. *)
Definition cleanup (now : Z) (st : LimiterState) : LimiterState :=
  {| requests :=
       omap (fun reqs : list Z =>
               let validRequests := filter (fun timestamp => now - 3600000 < timestamp) reqs in
               if bool_decide (List.length validRequests = 0%nat) then None else Some validRequests)
            (requests st);
     securityLog := securityLog st |}.

(** Consecutive calls of [isAllowed] for one identifier with the
    default arguments, at the given instants; the answers in order. *)
Fixpoint calls (identifier : string) (instants : list Z) (st : LimiterState)
    : list bool * LimiterState :=
  match instants with
  | [] => ([], st)
  | now :: r =>
      let (answer, st') := isAllowed now identifier defaultWindowMs defaultMaxRequests st in
      let (answers, st'') := calls identifier r st' in
      (answer :: answers, st'')
  end.

(** [SecurityLogger.maskEmail(email)].  A missing second part of the
    split is [undefined], which the template literal prints as such. *)
Definition maskEmail (email : string) : string :=
  let parts := split "@" email in
  let localPart := default EmptyString (parts !! 0%nat) in
  let domain := default "undefined" (parts !! 1%nat) in
  if bool_decide (String.length localPart <= 2)%nat
  then localPart +:+ "***@" +:+ domain
  else slice0 2 localPart +:+ "***@" +:+ domain.

End SecurityGuide.

(** ** The Convex backend functions, [convex/*.ts]

    The document store of Convex is not part of the repository.  A
    table is kept as the list of its documents in creation order;
    [insert] appends a document under a fresh identifier; a query over
    an index on one field yields the documents whose field equals the
    key, in creation order, [first()] the earliest of them;
    [order("desc")] reverses and [take(n)] keeps the first [n]. *)

Module Convex.
Import JS.

Definition Id : Type := nat.

Record UserDoc := {
  user_id : Id;
  user_name : string;
  user_email : string;
  emailVerificationTime : option Z
}.

(** A profile, with the fields the functions below write. *)
Record ProfileDoc := {
  profile_id : Id;
  profile_userId : Id;
  displayName : option string;
  profile_createdAt : Z;
  profile_updatedAt : Z
}.

Record AuthLogDoc := {
  log_id : Id;
  action : string;
  userId : option Id;
  email : option string;
  success : bool;
  timestamp : Z
}.

Record Db := {
  users : list UserDoc;
  profiles : list ProfileDoc;
  authLogs : list AuthLogDoc;
  nextId : Id
}.

Definition insertUser (n e : string) (verified : option Z) (db : Db) : Id * Db :=
  (nextId db,
   {| users := users db ++ [{| user_id := nextId db; user_name := n; user_email := e;
                               emailVerificationTime := verified |}];
      profiles := profiles db; authLogs := authLogs db; nextId := S (nextId db) |}).

Definition insertProfile (uid : Id) (dn : option string) (now : Z) (db : Db) : Db :=
  {| users := users db;
     profiles := profiles db ++ [{| profile_id := nextId db; profile_userId := uid;
                                    displayName := dn; profile_createdAt := now;
                                    profile_updatedAt := now |}];
     authLogs := authLogs db; nextId := S (nextId db) |}.

Definition insertAuthLog (act : string) (uid : option Id) (e : option string) (ok : bool)
    (now : Z) (db : Db) : Db :=
  {| users := users db; profiles := profiles db;
     authLogs := authLogs db ++ [{| log_id := nextId db; action := act; userId := uid;
                                    email := e; success := ok; timestamp := now |}];
     nextId := S (nextId db) |}.

(** [ctx.db.query("users") ... eq("email", e) ... .first()] *)
Definition firstUserByEmail (e : string) (db : Db) : option UserDoc :=
  List.find (fun user => String.eqb (user_email user) e) (users db).

(** [internal.checkUserExists] *)
Definition checkUserExists (e : string) (db : Db) : Z :=
  match firstUserByEmail e db with
  | Some user => 1
  | None => 0
  end.

(** [internal.createUser]: the [password] argument is not stored. *)
Definition createUser (now : Z) (n e p : string) (db : Db) : Id * Db :=
  let (uid, db) := insertUser n e None db in
  let db := insertProfile uid (Some n) now db in
  let db := insertAuthLog "user_registration" (Some uid) (Some e) true now db in
  (uid, db).

(** [internal.authenticateUser]: the [password] argument is not read. *)
Definition authenticateUser (e p : string) (db : Db) : option UserDoc :=
  firstUserByEmail e db.

(** The [register] mutation of [convex/authentication.ts]; [inl] is the
    message of the [Error] it throws, in which case nothing is
    written. *)
Definition register (now : Z) (n e p : string) (db : Db) : string + (Id * Db) :=
  match firstUserByEmail e db with
  | Some existingUser => inl "User with this email already exists"
  | None =>
      let (uid, db) := insertUser n e (Some now) db in
      let db := insertProfile uid (Some n) now db in
      let db := insertAuthLog "user_registered" (Some uid) (Some e) true now db in
      inr (uid, db)
  end.

(** [getMyAuthLogs] with authentication; [session] is the result of
    [auth.getUserId(ctx)]. *)
Definition getMyAuthLogs (session : option Id) (db : Db) : list AuthLogDoc :=
  match session with
  | None => []
  | Some uid =>
      take 50 (reverse (filter (fun log => userId log = Some uid) (authLogs db)))
  end.

(** [getMyAuthLogs] of the simplified [convex/users.ts]. *)
Definition getMyAuthLogs_demo (db : Db) : list AuthLogDoc := [].

Definition emptyDb : Db := {| users := []; profiles := []; authLogs := []; nextId := 0%nat |}.

End Convex.

(** ** Vocabulary of the statements *)

Module Payload.
Import JS.

(** A property named [__proto__], [constructor] or [prototype] occurs
    in the value, at any nesting depth. *)
Fixpoint hasDangerousKey (v : json) : bool :=
  match v with
  | JObj fields =>
      (fix any (fs : list (string * json)) : bool :=
         match fs with
         | [] => false
         | (key, value) :: r =>
             SecurityGuide.dangerous key || hasDangerousKey value || any r
         end) fields
  | JArr items =>
      (fix any (vs : list json) : bool :=
         match vs with
         | [] => false
         | value :: r => hasDangerousKey value || any r
         end) items
  | _ => false
  end.

(** [stringAt path v s]: following the property names of [path] from
    [v] (an index counts as the property name of an array item) leads
    to the string [s]. *)
Inductive stringAt : list string -> json -> string -> Prop :=
| stringAt_here (s : string) : stringAt [] (JStr s) s
| stringAt_step (key : string) (value : json) (path : list string) (o : json) (s : string) :
    In (key, value) (entries o) ->
    stringAt path value s ->
    stringAt (key :: path) o s.

(** What the validator of the guide does to a string value. *)
Definition cleanString (s : string) : string := slice0 1000 (trim s).

(** The loop of [deepSanitize] over a list of entries. *)
Fixpoint sanitizeEntries (es : list (string * json)) : list (string * json) :=
  match es with
  | [] => []
  | (key, value) :: r =>
      if SecurityGuide.dangerous key then sanitizeEntries r
      else (key, SecurityGuide.sanitizeValue SecurityGuide.deepSanitize value)
             :: sanitizeEntries r
  end.

(** [c.repeat(n)] *)
Fixpoint repeatChar (c : ascii) (n : nat) : string :=
  match n with
  | O => EmptyString
  | S n' => String c (repeatChar c n')
  end.

End Payload.

Module OriginPolicy.
Import JS Middleware.

(** The entries of the production allow-list that are configured: the
    application URL when the variable is set, and the fixed local
    origin. *)
Definition configuredOrigins (env : Env) : list string :=
  match NEXT_PUBLIC_APP_URL env with
  | Some url => [url; "http://localhost:3000"]
  | None => ["http://localhost:3000"]
  end.

(** The production rule in the words of the specification: the origin
    equals an entry of the allow-list, or the referer starts with one;
    a request without origin is accepted. *)
Definition specProductionRule (allowList : list string) (h : Headers) : bool :=
  match origin h with
  | None => true
  | Some o =>
      existsb (String.eqb o) allowList
      || match referer h with
         | Some r => existsb (startsWith r) allowList
         | None => false
         end
  end.

End OriginPolicy.

(** ** Further functions of the security guide, [CLAUDE_security.md] *)

Module GuideOrigin.
Import JS.

(** [process.env] as far as [validateOrigin] of the guide reads it. *)
Record Env := {
  NODE_ENV : option string;
  NEXT_PUBLIC_APP_URL : option string;
  ADDITIONAL_ALLOWED_ORIGIN : option string
}.

(** [x?.startsWith(p)] as a condition: falsy for [null]. *)
Definition optStartsWith (x : option string) (p : string) : bool :=
  match x with
  | Some s => startsWith s p
  | None => false
  end.

(** [[a, b].filter(Boolean)] for two possibly undefined strings. *)
Definition filterBoolean (xs : list (option string)) : list string :=
  omap (fun x => match x with
                 | Some s => if String.eqb s EmptyString then None else Some s
                 | None => None
                 end) xs.

(** [validateOrigin(request)] of the guide. *)
Definition validateOrigin (env : Env) (h : Middleware.Headers) : bool :=
  let origin := Middleware.origin h in
  let referer := Middleware.referer h in
  let isDevelopment := negb (bool_decide (NODE_ENV env = Some "production")) in
  if isDevelopment
     && (optStartsWith origin "http://localhost:" || optStartsWith origin "http://127.0.0.1:")
  then true
  else if isDevelopment
          && (optStartsWith referer "http://localhost:"
              || optStartsWith referer "http://127.0.0.1:")
  then true
  else
    let allowedOrigins :=
      filterBoolean [NEXT_PUBLIC_APP_URL env; ADDITIONAL_ALLOWED_ORIGIN env] in
    existsb (fun allowed =>
               bool_decide (origin = Some allowed) || optStartsWith referer (allowed +:+ "/"))
            allowedOrigins.

End GuideOrigin.

Module CredentialPolicy.
Import JS.

(** [{ isValid: true, data? }] or [{ isValid: false, error }] *)
Inductive Result : Type :=
| Ok (data : option string)
| Err (error : string).

Definition allChars (f : ascii -> bool) (s : string) : bool :=
  negb (existsChar (fun c => negb (f c)) s).

Definition inRange (lo hi : N) (c : ascii) : bool :=
  ((lo <=? code c) && (code c <=? hi))%N.

(** [[a-z]], [[A-Z]], [\d] and [[a-zA-Z0-9]] *)
Definition isLower (c : ascii) : bool := inRange 97 122 c.
Definition isUpper (c : ascii) : bool := inRange 65 90 c.
Definition isDigit (c : ascii) : bool := inRange 48 57 c.
Definition isAlnum (c : ascii) : bool := isLower c || isUpper c || isDigit c.

(** The class of the local part in [EMAIL_REGEX]. *)
Definition isLocalChar (c : ascii) : bool :=
  isAlnum c || existsChar (Ascii.eqb c) ".!#$%&'*+/=?^_`{|}~-".

Fixpoint lastChar (s : string) : option ascii :=
  match s with
  | EmptyString => None
  | String c EmptyString => Some c
  | String _ r => lastChar r
  end.

(** One label of the domain in [EMAIL_REGEX]:
    [[a-zA-Z0-9](?:[a-zA-Z0-9-]{0,61}[a-zA-Z0-9])?], that is 1 to 63
    letters, digits and hyphens with no hyphen at either end. *)
Definition isLabel (l : string) : bool :=
  match l with
  | EmptyString => false
  | String c _ =>
      isAlnum c
      && (String.length l <=? 63)%nat
      && allChars (fun x => isAlnum x || Ascii.eqb x "-") l
      && match lastChar l with
         | Some z => isAlnum z
         | None => false
         end
  end.

(** [EMAIL_REGEX.test(email)]: a non-empty local part, one [@], and
    labels joined by dots. *)
Definition EMAIL_REGEX_test (email : string) : bool :=
  match split "@" email with
  | [localPart; domain] =>
      negb (String.eqb localPart EmptyString)
      && allChars isLocalChar localPart
      && forallb isLabel (split "." domain)
  | _ => false
  end.

Definition disposableDomains : list string :=
  ["10minutemail.com"; "tempmail.org"; "guerrillamail.com"].

Definition isDisposableEmail (domain : string) : bool :=
  existsb (String.eqb (toLowerCase domain)) disposableDomains.

(** [EmailValidator.validate(email)] *)
Definition validateEmail (email : string) : Result :=
  if negb (EMAIL_REGEX_test email) then Err "Invalid email format"
  else if (254 <? String.length email)%nat then Err "Email too long"
  else
    let parts := split "@" email in
    let localPart := default EmptyString (parts !! 0%nat) in
    let domain := default "undefined" (parts !! 1%nat) in
    if (64 <? String.length localPart)%nat then Err "Email local part too long"
    else if isDisposableEmail domain then Err "Disposable emails not allowed"
    else Ok (Some (trim (toLowerCase email))).

(** The class of the symbols that [PasswordValidator.validate] asks
    for: the characters of the literal below and the double quote,
    which is given by its code. *)
Definition isSpecial (c : ascii) : bool :=
  existsChar (Ascii.eqb c) "!@#$%^&*()_+-=[]{};':\|,.<>/?" || (code c =? 34)%N.

Definition commonPasswords : list string :=
  ["password"; "123456"; "password123"; "admin"; "qwerty";
   "letmein"; "welcome"; "monkey"; "1234567890"].

Definition isCommonPassword (password : string) : bool :=
  existsb (String.eqb (toLowerCase password)) commonPasswords.

(** [hasSequentialChars(password)]: three code units in a row, each
    one more than the one before. *)
Fixpoint hasSequentialChars (password : string) : bool :=
  match password with
  | String char1 ((String char2 (String char3 _)) as rest) =>
      ((code char2 =? code char1 + 1) && (code char3 =? code char2 + 1))%N
      || hasSequentialChars rest
  | _ => false
  end.

(** [errors.join(sep)] *)
Fixpoint joinWith (sep : string) (parts : list string) : string :=
  match parts with
  | [] => EmptyString
  | [p] => p
  | p :: ps => p +:+ sep +:+ joinWith sep ps
  end.

(** The messages that [PasswordValidator.validate] collects, in the
    order of its checks. *)
Definition passwordErrors (password : string) : list string :=
  (if (String.length password <? 8)%nat
   then ["Password must be at least 8 characters long"] else [])
  ++ (if (128 <? String.length password)%nat
      then ["Password must not exceed 128 characters"] else [])
  ++ (if negb (existsChar isLower password)
      then ["Password must contain at least one lowercase letter"] else [])
  ++ (if negb (existsChar isUpper password)
      then ["Password must contain at least one uppercase letter"] else [])
  ++ (if negb (existsChar isDigit password)
      then ["Password must contain at least one number"] else [])
  ++ (if negb (existsChar isSpecial password)
      then ["Password must contain at least one special character"] else [])
  ++ (if isCommonPassword password
      then ["Password is too common, please choose a stronger password"] else [])
  ++ (if hasSequentialChars password
      then ["Password should not contain sequential characters"] else []).

(** [PasswordValidator.validate(password)] *)
Definition validatePassword (password : string) : Result :=
  match passwordErrors password with
  | [] => Ok None
  | errors => Err (joinWith "; " errors)
  end.

End CredentialPolicy.

(** ** Further functions of the Convex backend *)

Module ConvexHttp.
Import JS Http.

(** The identifier of a document as it appears in a response body. *)
Definition idValue (uid : Convex.Id) : json := JNum (Z.of_nat uid).

(** The [register] HTTP action of [http_auth]; [body] is the outcome
    of [request.json()].  A body that does not parse or is [null], on
    which the destructuring throws outside the [try], and a truthy
    field that is not a string, which the argument validators of the
    called functions refuse, are outside the embedding ([None]). *)
Definition register (now : Z) (body : option json) (db : Convex.Db)
    : option (Response * Convex.Db) :=
  match body with
  | None | Some JNull => None
  | Some b =>
      let name := getProp "name" (entries b) in
      let email := getProp "email" (entries b) in
      let password := getProp "password" (entries b) in
      if negb (truthy name) || negb (truthy email) || negb (truthy password) then
        Some (errorResponse 400 "Missing required fields", db)
      else
        match name, email, password with
        | Some (JStr name), Some (JStr email), Some (JStr password) =>
            if 0 <? Convex.checkUserExists email db then
              Some (errorResponse 409 "User with this email already exists", db)
            else
              let (userId, db') := Convex.createUser now name email password db in
              Some ({| status := 201;
                       body := JObj [("success", JBool true);
                                     ("userId", idValue userId);
                                     ("message", JStr "User created successfully")] |},
                    db')
        | _, _, _ => None
        end
  end.

(** The [login] HTTP action of [http_auth], with the same limits. *)
Definition login (now : Z) (body : option json) (db : Convex.Db)
    : option (Response * Convex.Db) :=
  match body with
  | None | Some JNull => None
  | Some b =>
      let email := getProp "email" (entries b) in
      let password := getProp "password" (entries b) in
      if negb (truthy email) || negb (truthy password) then
        Some (errorResponse 400 "Email and password are required", db)
      else
        match email, password with
        | Some (JStr email), Some (JStr password) =>
            match Convex.authenticateUser email password db with
            | None => Some (errorResponse 401 "Invalid email or password", db)
            | Some user =>
                Some ({| status := 200;
                         body := JObj [("success", JBool true);
                                       ("userId", idValue (Convex.user_id user));
                                       ("user", JObj [("name", JStr (Convex.user_name user));
                                                      ("email", JStr (Convex.user_email user))]);
                                       ("message", JStr "Login successful")] |},
                      Convex.insertAuthLog "user_login" (Some (Convex.user_id user))
                        (Some (Convex.user_email user)) true now db)
            end
        | _, _ => None
        end
  end.

End ConvexHttp.

Module ConvexAccount.





End ConvexAccount.

Module Shape.
Import JS.


End Shape.

(** * Properties *)

(** ** Strings *)

Section StringFacts.
Import JS.

Lemma startsWith_empty (s : string) : startsWith s EmptyString = true.
Proof. unfold startsWith. by destruct s. Qed.

Lemma slice0_all (n : nat) (s : string) :
  (String.length s <= n)%nat -> slice0 n s = s.
Proof.
  revert n. induction s as [|c r IH]; intros [|n] Hlen; simpl in *; try done; try lia.
  f_equal. apply IH. lia.
Qed.

Lemma slice0_length (n : nat) (s : string) :
  String.length (slice0 n s) = Nat.min n (String.length s).
Proof.
  revert n. induction s as [|c r IH]; intros [|n]; simpl; try done.
  by rewrite IH.
Qed.

Lemma split_no_sep (sep : ascii) (s : string) :
  existsChar (Ascii.eqb sep) s = false -> split sep s = [s].
Proof.
  induction s as [|c r IH]; simpl; [done|].
  intros [Hc Hr]%orb_false_iff.
  rewrite Ascii.eqb_sym, Hc. by rewrite (IH Hr).
Qed.

Lemma split_app_sep (sep : ascii) (a b : string) :
  existsChar (Ascii.eqb sep) a = false ->
  split sep (a +:+ String sep b) = a :: split sep b.
Proof.
  induction a as [|c r IH]; simpl.
  - intros _. by rewrite Ascii.eqb_refl.
  - intros [Hc Hr]%orb_false_iff.
    rewrite Ascii.eqb_sym, Hc. by rewrite (IH Hr).
Qed.

End StringFacts.

(** ** The origin guard *)

(** C9: a request without [Origin] header is accepted, whatever the
    environment (production or not) and whatever its [Referer]. *)
Theorem validateOrigin_accepts_missing_origin
    (env : Middleware.Env) (ref : option string) :
  Middleware.validateOrigin env
    {| Middleware.origin := None; Middleware.referer := ref |} = true.
Proof.
  unfold Middleware.validateOrigin; simpl.
  destruct (negb _); simpl.
  - by destruct (_ && _).
  - by destruct (_ && _).
Qed.

(** C10: in production mode with [NEXT_PUBLIC_APP_URL] unset, every
    request with a non-empty [Referer] is accepted, whatever its
    [Origin]; the origin [http://localhost:3000] is accepted in
    production under every configuration; and the rule of the
    specification (origin equal to, or referer prefixed by, a
    configured entry) rejects a request that the guard accepts. *)
Theorem validateOrigin_production_without_app_url
    (o ref' appUrl : option string) (ref : string)
    (Href : ref <> EmptyString) :
  let unset := {| Middleware.NODE_ENV := Some "production";
                  Middleware.NEXT_PUBLIC_APP_URL := None |} in
  Middleware.validateOrigin unset
    {| Middleware.origin := o; Middleware.referer := Some ref |} = true
  /\ Middleware.validateOrigin
       {| Middleware.NODE_ENV := Some "production";
          Middleware.NEXT_PUBLIC_APP_URL := appUrl |}
       {| Middleware.origin := Some "http://localhost:3000";
          Middleware.referer := ref' |} = true
  /\ exists h : Middleware.Headers,
       Middleware.validateOrigin unset h = true
       /\ OriginPolicy.specProductionRule (OriginPolicy.configuredOrigins unset) h = false.
Proof.
  intros unset. split; [|split].
  - unfold Middleware.validateOrigin; simpl.
    assert (negb (String.eqb ref EmptyString) = true) as Hne.
    { apply negb_true_iff, String.eqb_neq, Href. }
    rewrite Hne, startsWith_empty. simpl.
    by destruct (_ && _).
  - unfold Middleware.validateOrigin; simpl.
    by rewrite orb_true_r.
  - exists {| Middleware.origin := Some "https://evil.example";
              Middleware.referer := Some "https://evil.example/login" |}.
    by vm_compute.
Qed.

Lemma validateOrigin_production_without_app_url_witness :
  "https://evil.example/login" <> EmptyString
  /\ Middleware.validateOrigin
       {| Middleware.NODE_ENV := Some "production"; Middleware.NEXT_PUBLIC_APP_URL := None |}
       {| Middleware.origin := Some "https://evil.example";
          Middleware.referer := Some "https://evil.example/login" |} = true.
Proof.
  split; [discriminate|].
  apply (validateOrigin_production_without_app_url
           (Some "https://evil.example") None None "https://evil.example/login").
  discriminate.
Defined.

(** ** Masking of e-mail addresses *)

(** C7: for an address [localPart@domain] (one [@]), [maskEmail] keeps
    the first two characters of the local part, puts [***] in place of
    the rest and keeps the domain; a local part of at most two
    characters is kept whole. *)
Theorem maskEmail_keeps_two_characters (localPart domain : string)
    (Hlocal : JS.existsChar (Ascii.eqb "@") localPart = false)
    (Hdomain : JS.existsChar (Ascii.eqb "@") domain = false) :
  SecurityGuide.maskEmail (localPart +:+ "@" +:+ domain)
    = JS.slice0 2 localPart +:+ "***@" +:+ domain
  /\ ((String.length localPart <= 2)%nat -> JS.slice0 2 localPart = localPart)
  /\ SecurityGuide.maskEmail "ab@example.com" = "ab***@example.com"
  /\ SecurityGuide.maskEmail "a@example.com" = "a***@example.com".
Proof.
  split; [|split; [|split]]; try reflexivity.
  - unfold SecurityGuide.maskEmail.
    change ("@" +:+ domain) with (String "@" domain).
    rewrite (split_app_sep _ _ _ Hlocal), (split_no_sep _ _ Hdomain).
    cbn [lookup list_lookup default from_option id].
    case_bool_decide as Hlen; [|done].
    by rewrite (slice0_all _ _ Hlen).
  - apply slice0_all.
Qed.

Lemma maskEmail_keeps_two_characters_witness :
  SecurityGuide.maskEmail ("alice" +:+ "@" +:+ "example.com") = "al***@example.com".
Proof.
  refine (proj1 (maskEmail_keeps_two_characters "alice" "example.com" _ _)); reflexivity.
Defined.

(** The line that the login route writes for a failed attempt is not
    built by [maskEmail]: it keeps the first three characters of the
    whole address and no domain. *)
Lemma failedLoginLine_example :
  LoginRoute.failedLoginLine "alice@example.com"
  = "Failed login attempt for email: ali***".
Proof. reflexivity. Qed.

(** ** The rate limiter *)

Section RateLimiterFacts.
Import SecurityGuide.

Lemma filter_all_in (P : Z -> Prop) `{!forall t, Decision (P t)} (l : list Z) :
  Forall P l -> filter P l = l.
Proof.
  induction 1 as [|t l Ht _ IH]; [done|].
  by rewrite filter_cons_True, IH.
Qed.

Lemma filter_all_out (P : Z -> Prop) `{!forall t, Decision (P t)} (l : list Z) :
  Forall (fun t => ~ P t) l -> filter P l = [].
Proof.
  induction 1 as [|t l Ht _ IH]; [done|].
  by rewrite filter_cons_False.
Qed.

(** A call whose window still holds all recorded instants, fewer than
    the maximum: it is allowed and recorded. *)
Lemma isAllowed_allows (now windowMs maxRequests : Z) (identifier : string)
    (st : LimiterState) (recorded : list Z) :
  default [] (requests st !! identifier) = recorded ->
  Forall (fun t => now - windowMs < t) recorded ->
  Z.of_nat (List.length recorded) < maxRequests ->
  isAllowed now identifier windowMs maxRequests st
  = (true, {| requests := <[identifier := (recorded ++ [now])%list]> (requests st);
              securityLog := securityLog st |}).
Proof.
  intros Hrec Hwin Hlt. unfold isAllowed. rewrite Hrec.
  rewrite (filter_all_in _ _ Hwin).
  rewrite bool_decide_eq_false_2; [done|lia].
Qed.

(** A call whose window holds the maximum of recorded instants: it is
    denied, nothing is recorded and one line is logged. *)
Lemma isAllowed_denies (now windowMs maxRequests : Z) (identifier : string)
    (st : LimiterState) (recorded : list Z) :
  default [] (requests st !! identifier) = recorded ->
  Forall (fun t => now - windowMs < t) recorded ->
  maxRequests <= Z.of_nat (List.length recorded) ->
  isAllowed now identifier windowMs maxRequests st
  = (false, logRateLimit now identifier (List.length recorded) st).
Proof.
  intros Hrec Hwin Hle. unfold isAllowed. rewrite Hrec.
  rewrite (filter_all_in _ _ Hwin).
  by rewrite bool_decide_eq_true_2.
Qed.

(** A call after the window has passed all recorded instants. *)
Lemma isAllowed_after_window (now windowMs maxRequests : Z) (identifier : string)
    (st : LimiterState) :
  Forall (fun t => t <= now - windowMs) (default [] (requests st !! identifier)) ->
  0 < maxRequests ->
  fst (isAllowed now identifier windowMs maxRequests st) = true.
Proof.
  intros Hold Hpos. unfold isAllowed.
  rewrite filter_all_out.
  - rewrite bool_decide_eq_false_2; [done|simpl; lia].
  - eapply Forall_impl; [exact Hold|]. intros t Ht. simpl in Ht. lia.
Qed.

(** Calls that all fall into the window ending at [latest], while the
    maximum is not reached: all are allowed and recorded in order. *)
Lemma calls_allowed (identifier : string) (latest : Z) (instants : list Z) :
  forall (st : LimiterState) (recorded : list Z),
    default [] (requests st !! identifier) = recorded ->
    Forall (fun t => latest - defaultWindowMs < t) recorded ->
    Forall (fun t => latest - defaultWindowMs < t <= latest) instants ->
    (List.length recorded + List.length instants <= 10)%nat ->
    fst (calls identifier instants st) = replicate (List.length instants) true
    /\ default [] (requests (snd (calls identifier instants st)) !! identifier)
       = (recorded ++ instants)%list
    /\ securityLog (snd (calls identifier instants st)) = securityLog st.
Proof.
  induction instants as [|now r IH]; intros st recorded Hrec Hwin Hin Hlen.
  - simpl. by rewrite app_nil_r.
  - apply Forall_cons in Hin as [Hnow Hr]. simpl in Hlen.
    cbn [calls].
    rewrite (isAllowed_allows now _ _ identifier st recorded Hrec).
    + set (st' := {| requests := _ |}).
      destruct (IH st' (recorded ++ [now])%list) as (Hans & Hreq & Hlog).
      * subst st'. simpl. by rewrite lookup_insert_eq.
      * apply Forall_app. split; [done|]. apply Forall_singleton. lia.
      * done.
      * rewrite length_app. simpl. lia.
      * destruct (calls identifier r st') as [answers st'']. simpl in *.
        rewrite Hans, Hreq, Hlog, <- app_assoc. done.
    + eapply Forall_impl; [exact Hwin|]. intros t Ht. simpl in Ht. lia.
    + unfold defaultMaxRequests. lia.
Qed.

Lemma calls_app (identifier : string) (a b : list Z) (st : LimiterState) :
  calls identifier (a ++ b) st
  = ((fst (calls identifier a st) ++ fst (calls identifier b (snd (calls identifier a st))))%list,
     snd (calls identifier b (snd (calls identifier a st)))).
Proof.
  revert st. induction a as [|now r IH]; intros st; simpl.
  - by destruct (calls identifier b st).
  - destruct (isAllowed now identifier defaultWindowMs defaultMaxRequests st) as [answer st'].
    rewrite IH.
    destruct (calls identifier r st') as [answers st'']. simpl.
    by destruct (calls identifier b st'').
Qed.

End RateLimiterFacts.

(** C2 (amended): the sliding-window limiter [RateLimiter.isAllowed]
    of the security guide, with the default window of 900000 ms and
    maximum of 10, allows the first ten calls of an identifier that
    fall into one window and denies the eleventh; once the window has
    passed all recorded instants the next call is allowed.  The
    [rateLimit()] of [middleware.ts], which the routes call, allows
    every call. *)
Theorem rate_limiter_sliding_window
    (identifier : string) (st : SecurityGuide.LimiterState)
    (first10 : list Z) (t11 later : Z)
    (Hfresh : SecurityGuide.requests st !! identifier = None)
    (Hten : List.length first10 = 10%nat)
    (Hwindow : forall t, t ∈ first10 -> t11 - 900000 < t <= t11)
    (Hlater : forall t, t ∈ first10 -> t + 900000 <= later) :
  fst (SecurityGuide.calls identifier (first10 ++ [t11]) st)
    = (replicate 10 true ++ [false])%list
  /\ fst (SecurityGuide.isAllowed later identifier 900000 10
            (snd (SecurityGuide.calls identifier (first10 ++ [t11]) st))) = true
  /\ forall u : unit, Middleware.allowed (Middleware.rateLimit u) = true.
Proof.
  destruct (calls_allowed identifier t11 first10 st [] ) as (Hans & Hreq & Hlog).
  { by rewrite Hfresh. }
  { constructor. }
  { apply Forall_forall. intros t Ht. apply (Hwindow t Ht). }
  { rewrite Hten. simpl. lia. }
  rewrite Hten in Hans. simpl in Hreq.
  rewrite calls_app. cbn [fst snd]. rewrite Hans.
  set (st10 := snd (SecurityGuide.calls identifier first10 st)) in *.
  cbn [SecurityGuide.calls].
  rewrite (isAllowed_denies t11 _ _ identifier st10 first10 Hreq).
  - cbn [fst snd]. split; [done|]. split; [|done].
    apply isAllowed_after_window; [|lia].
    cbn [SecurityGuide.logRateLimit SecurityGuide.requests]. rewrite Hreq.
    apply Forall_forall. intros t Ht. specialize (Hlater t Ht). lia.
  - apply Forall_forall. intros t Ht. apply (Hwindow t Ht).
  - rewrite Hten. unfold SecurityGuide.defaultMaxRequests. lia.
Qed.

Lemma rate_limiter_sliding_window_witness :
  fst (SecurityGuide.calls "203.0.113.7" ([1; 2; 3; 4; 5; 6; 7; 8; 9; 10] ++ [11])
         {| SecurityGuide.requests := ∅; SecurityGuide.securityLog := [] |})
    = (replicate 10 true ++ [false])%list
  /\ fst (SecurityGuide.isAllowed 900010 "203.0.113.7" 900000 10
            (snd (SecurityGuide.calls "203.0.113.7" ([1; 2; 3; 4; 5; 6; 7; 8; 9; 10] ++ [11])
                    {| SecurityGuide.requests := ∅; SecurityGuide.securityLog := [] |}))) = true.
Proof.
  pose proof (rate_limiter_sliding_window "203.0.113.7"
                {| SecurityGuide.requests := ∅; SecurityGuide.securityLog := [] |}
                [1; 2; 3; 4; 5; 6; 7; 8; 9; 10] 11 900010) as H.
  destruct H as (H1 & H2 & _).
  - reflexivity.
  - reflexivity.
  - intros t Ht. repeat (apply elem_of_cons in Ht as [->|Ht]; [lia|]). by apply elem_of_nil in Ht.
  - intros t Ht. repeat (apply elem_of_cons in Ht as [->|Ht]; [lia|]). by apply elem_of_nil in Ht.
  - split; [exact H1|exact H2].
Defined.

(** C2, as stated, fails on the limiter that the routes call: eleven
    login requests in a row from one client all pass the rate-limit
    stage; the eleventh is answered 401 like the others, not 429. *)
Lemma rateLimit_allows_eleventh_call :
  let t := {| MockAuthStore.now := 1000; MockAuthStore.random := "k3j9x" |} in
  let request :=
    ({| Http.headers := {| Middleware.origin := Some "http://localhost:3000";
                           Middleware.referer := None |};
        Http.json_body := Some (JS.JObj [("email", JS.JStr "test@example.com");
                                         ("password", JS.JStr "wrongpass")]) |}, t) in
  Http.status <$> fst (LoginRoute.serve
                         {| Middleware.NODE_ENV := None; Middleware.NEXT_PUBLIC_APP_URL := None |}
                         (replicate 11 request) (MockAuthStore.initial t t))
    = replicate 11 401
  /\ Middleware.allowed <$> replicate 11 (Middleware.rateLimit tt) = replicate 11 true.
Proof. by vm_compute. Qed.


(** ** The validator *)

Section ValidatorFacts.
Import JS Payload SecurityGuide.

(** Induction over JSON values, with the hypothesis for every item
    of an array and every property value of an object. *)
Lemma json_nested_ind (P : json -> Prop) :
  P JNull ->
  (forall b, P (JBool b)) ->
  (forall n, P (JNum n)) ->
  (forall s, P (JStr s)) ->
  (forall items, Forall P items -> P (JArr items)) ->
  (forall fields, Forall (fun kv => P (snd kv)) fields -> P (JObj fields)) ->
  forall v, P v.
Proof.
  intros HNull HBool HNum HStr HArr HObj.
  fix IH 1. intros [ | b | n | s | items | fields ].
  - exact HNull.
  - apply HBool.
  - apply HNum.
  - apply HStr.
  - apply HArr. induction items as [|v r IHr]; constructor; [apply IH | exact IHr].
  - apply HObj. induction fields as [|[k v] r IHr]; constructor; [apply IH | exact IHr].
Qed.

Lemma deepSanitize_object (fields : list (string * json)) :
  deepSanitize (JObj fields) = JObj (sanitizeEntries fields).
Proof. reflexivity. Qed.

Lemma deepSanitize_array (items : list json) :
  deepSanitize (JArr items) = JObj (sanitizeEntries (arrayEntries 0 items)).
Proof.
  simpl. f_equal. generalize 0%nat.
  induction items as [|v r IH]; intros i; [done|].
  simpl. rewrite IH. done.
Qed.

Lemma hasDangerousKey_object (fields : list (string * json)) :
  hasDangerousKey (JObj fields)
  = existsb (fun kv => dangerous (fst kv) || hasDangerousKey (snd kv)) fields.
Proof.
  simpl. induction fields as [|[k v] r IH]; [done|].
  simpl. by rewrite IH.
Qed.

Lemma hasDangerousKey_array (items : list json) :
  hasDangerousKey (JArr items) = existsb hasDangerousKey items.
Proof.
  simpl. induction items as [|v r IH]; [done|].
  simpl. by rewrite IH.
Qed.

Lemma sanitizeValue_clean (v : json) :
  hasDangerousKey (deepSanitize v) = false ->
  hasDangerousKey (sanitizeValue deepSanitize v) = false.
Proof. by destruct v. Qed.

Lemma sanitizeEntries_clean (es : list (string * json)) :
  Forall (fun kv => hasDangerousKey (deepSanitize (snd kv)) = false) es ->
  existsb (fun kv => dangerous (fst kv) || hasDangerousKey (snd kv)) (sanitizeEntries es) = false.
Proof.
  induction 1 as [|[k v] r Hv _ IH]; [done|].
  cbn [sanitizeEntries snd] in *. destruct (dangerous k) eqn:Hk; [done|].
  cbn [existsb fst snd]. by rewrite Hk, (sanitizeValue_clean _ Hv).
Qed.

Lemma arrayEntries_Forall (P : json -> Prop) (items : list json) (i : nat) :
  Forall P items -> Forall (fun kv => P (snd kv)) (arrayEntries i items).
Proof.
  intros H. revert i. induction H as [|v r Hv _ IH]; intros i; constructor; [done|apply IH].
Qed.

(** The validator of the guide leaves no dangerous property name at
    any depth. *)
Lemma deepSanitize_strips_dangerous_keys (v : json) :
  hasDangerousKey (deepSanitize v) = false.
Proof.
  induction v as [ | b | n | s | items IH | fields IH ] using json_nested_ind; try done.
  - rewrite deepSanitize_array, hasDangerousKey_object.
    apply sanitizeEntries_clean.
    by apply (arrayEntries_Forall (fun v => hasDangerousKey (deepSanitize v) = false)).
  - rewrite deepSanitize_object, hasDangerousKey_object.
    by apply sanitizeEntries_clean.
Qed.

Lemma guide_validateRequest_strips_dangerous_keys (body data : json) :
  validateRequest body = Middleware.Valid data -> hasDangerousKey data = false.
Proof.
  destruct body; simpl; try discriminate; intros [= <-];
    apply (deepSanitize_strips_dangerous_keys (JObj _)).
Qed.

End ValidatorFacts.

(** C3: the claim fails on the validator of [middleware.ts], which
    strips the three names from the top level only: a nested
    [__proto__] comes back unchanged in the cleaned data. *)
Theorem middleware_validateRequest_keeps_nested_dangerous_key :
  let body :=
    JS.JObj [("profile", JS.JObj [("__proto__", JS.JObj [("isAdmin", JS.JBool true)])])] in
  Middleware.validateRequest body = Middleware.Valid body
  /\ Payload.hasDangerousKey body = true.
Proof. by vm_compute. Qed.

(** The validator of [middleware.ts] removes the three names from the
    top level of the body and keeps every other property, with its
    value as it is. *)
Lemma middleware_validateRequest_top_level (body data : JS.json) :
  Middleware.validateRequest body = Middleware.Valid data ->
  forall key value,
    In (key, value) (JS.entries data)
    <-> In (key, value) (JS.entries body) /\ SecurityGuide.dangerous key = false.
Proof.
  intros Hvalid key value.
  assert (data = JS.JObj (JS.deleteProp "prototype" (JS.deleteProp "constructor"
                            (JS.deleteProp "__proto__" (JS.entries body))))) as ->.
  { destruct body; simpl in Hvalid; try discriminate; by injection Hvalid as <-. }
  cbn [JS.entries]. unfold JS.deleteProp, SecurityGuide.dangerous.
  rewrite !filter_In. cbn [fst].
  rewrite !negb_true_iff, !orb_false_iff. tauto.
Qed.

Section TrimFacts.
Import JS.

Lemma append_String (c : ascii) (a b : string) :
  String c a +:+ b = String c (a +:+ b).
Proof. reflexivity. Qed.

Lemma trimStart_split (s : string) :
  exists pre, s = pre +:+ trimStart s /\ blank pre.
Proof.
  induction s as [|c r (pre & Heq & Hpre)]; [by exists EmptyString|].
  simpl. destruct (isWhiteSpace c) eqn:Hc.
  - exists (String c pre). split; [rewrite append_String; by f_equal|].
    unfold blank in *. simpl. by rewrite Hc.
  - by exists EmptyString.
Qed.

Lemma trimEnd_split (s : string) :
  exists post, s = trimEnd s +:+ post /\ blank post.
Proof.
  induction s as [|c r (post & Heq & Hpost)]; [by exists EmptyString|].
  simpl. destruct (trimEnd r) as [|c' r'] eqn:Hr.
  - change (EmptyString +:+ post) with post in Heq. subst r. destruct (isWhiteSpace c) eqn:Hc.
    + exists (String c post). split; [done|]. unfold blank in *. simpl. by rewrite Hc.
    + by exists post.
  - exists post. split; [|done]. rewrite !append_String in *. by f_equal.
Qed.

Lemma trimEnd_idempotent (s : string) : trimEnd (trimEnd s) = trimEnd s.
Proof.
  induction s as [|c r IH]; [done|].
  simpl. destruct (trimEnd r) as [|c' r'] eqn:Hr.
  - destruct (isWhiteSpace c) eqn:Hc; [done|]. simpl. by rewrite Hc.
  - change (trimEnd (String c (String c' r')))
      with (match trimEnd (String c' r') with
            | EmptyString => if isWhiteSpace c then EmptyString else String c EmptyString
            | r'' => String c r''
            end).
    by rewrite IH.
Qed.

Lemma trimStart_idempotent (s : string) : trimStart (trimStart s) = trimStart s.
Proof.
  induction s as [|c r IH]; [done|].
  simpl. destruct (isWhiteSpace c) eqn:Hc; [done|]. simpl. by rewrite Hc.
Qed.

Lemma trimStart_length (s : string) :
  (String.length (trimStart s) <= String.length s)%nat.
Proof.
  induction s as [|c r IH]; [done|].
  simpl. destruct (isWhiteSpace c); simpl; lia.
Qed.

Lemma trimStart_trimEnd (s : string) :
  trimStart s = s -> trimStart (trimEnd s) = trimEnd s.
Proof.
  destruct s as [|c r]; [done|].
  simpl. destruct (isWhiteSpace c) eqn:Hc.
  - intros Heq. exfalso.
    pose proof (trimStart_length r) as Hlen.
    rewrite Heq in Hlen. simpl in Hlen. lia.
  - intros _. destruct (trimEnd r); simpl; by rewrite Hc.
Qed.

(** [trim] takes white space, and nothing else, from both ends. *)
Lemma trim_spec (s : string) :
  (exists pre post, s = pre +:+ trim s +:+ post /\ blank pre /\ blank post)
  /\ trimStart (trim s) = trim s
  /\ trimEnd (trim s) = trim s.
Proof.
  unfold trim. split; [|split].
  - destruct (trimStart_split s) as (pre & Hs & Hpre).
    destruct (trimEnd_split (trimStart s)) as (post & Ht & Hpost).
    exists pre, post. split; [|done]. by rewrite <- Ht.
  - apply trimStart_trimEnd, trimStart_idempotent.
  - apply trimEnd_idempotent.
Qed.

End TrimFacts.

Section CleanedStrings.
Import JS Payload SecurityGuide.

Lemma sanitizeEntries_In (key : string) (value : json) (es : list (string * json)) :
  dangerous key = false ->
  In (key, value) es ->
  In (key, sanitizeValue deepSanitize value) (sanitizeEntries es).
Proof.
  intros Hkey. induction es as [|[k v] r IH]; [done|].
  intros [Heq|Hin].
  - injection Heq as -> ->. cbn [sanitizeEntries]. rewrite Hkey. by left.
  - cbn [sanitizeEntries]. destruct (dangerous k); [by apply IH|]. right. by apply IH.
Qed.

Lemma deepSanitize_entries (o : json) :
  entries o <> [] -> deepSanitize o = JObj (sanitizeEntries (entries o)).
Proof.
  destruct o as [ | b | n | s | items | fields ]; try done.
  intros _. apply deepSanitize_array.
Qed.

(** A string reached through harmless property names is found at the
    same place after [deepSanitize], trimmed and cut. *)
Lemma sanitizeValue_stringAt (path : list string) (v : json) (s : string) :
  stringAt path v s ->
  Forall (fun key => dangerous key = false) path ->
  stringAt path (sanitizeValue deepSanitize v) (cleanString s).
Proof.
  induction 1 as [s|key value path o s Hin Hat IH]; intros Hpath.
  - constructor.
  - apply Forall_cons in Hpath as [Hkey Hpath].
    assert (entries o <> []) as Hne by (by destruct (entries o)).
    assert (sanitizeValue deepSanitize o = deepSanitize o) as ->
      by (by destruct o).
    rewrite (deepSanitize_entries o Hne).
    apply (stringAt_step key (sanitizeValue deepSanitize value)).
    + by apply sanitizeEntries_In.
    + by apply IH.
Qed.

Lemma In_deleteProp (key name : string) (value : json) (fields : list (string * json)) :
  key <> name ->
  In (key, value) fields -> In (key, value) (deleteProp name fields).
Proof.
  intros Hne Hin. unfold deleteProp. apply filter_In. split; [done|].
  simpl. by apply negb_true_iff, String.eqb_neq.
Qed.

Lemma dangerous_false (key : string) :
  dangerous key = false ->
  key <> "__proto__" /\ key <> "constructor" /\ key <> "prototype".
Proof.
  unfold dangerous. intros [[H1 H2]%orb_false_iff H3]%orb_false_iff.
  by rewrite !String.eqb_neq in *.
Qed.

(** The three top-level deletions keep the other properties. *)
Lemma In_sanitized (key : string) (value : json) (fields : list (string * json)) :
  dangerous key = false ->
  In (key, value) fields ->
  In (key, value)
     (deleteProp "prototype" (deleteProp "constructor" (deleteProp "__proto__" fields))).
Proof.
  intros (H1 & H2 & H3)%dangerous_false Hin.
  by repeat apply In_deleteProp.
Qed.

Lemma cleanString_length (s : string) :
  (String.length (cleanString s) <= 1000)%nat
  /\ ((1000 < String.length (trim s))%nat -> String.length (cleanString s) = 1000%nat).
Proof.
  unfold cleanString. rewrite slice0_length. lia.
Qed.

End CleanedStrings.

(** C4 (amended): the validator of the security guide returns every
    string of an accepted payload (reached through property names
    other than the three dangerous ones) at the same place, with the
    surrounding white space removed and then cut to the first 1000
    characters, so to exactly 1000 when the trimmed string is longer.
    The [validateRequest] of [middleware.ts], which the routes call,
    returns the strings unchanged. *)
Theorem validator_trims_and_truncates
    (body data : JS.json) (path : list string) (s : string)
    (Hvalid : SecurityGuide.validateRequest body = Middleware.Valid data)
    (Hat : Payload.stringAt path body s)
    (Hpath : Forall (fun key => SecurityGuide.dangerous key = false) path) :
  Payload.stringAt path data (JS.slice0 1000 (JS.trim s))
  /\ (String.length (JS.slice0 1000 (JS.trim s)) <= 1000)%nat
  /\ ((1000 < String.length (JS.trim s))%nat ->
      String.length (JS.slice0 1000 (JS.trim s)) = 1000%nat)
  /\ (exists pre post, s = pre +:+ JS.trim s +:+ post /\ JS.blank pre /\ JS.blank post)
  /\ JS.trimStart (JS.trim s) = JS.trim s
  /\ JS.trimEnd (JS.trim s) = JS.trim s
  /\ exists data', Middleware.validateRequest body = Middleware.Valid data'
                   /\ Payload.stringAt path data' s.
Proof.
  destruct (cleanString_length s) as [Hle Heq].
  destruct (trim_spec s) as (Hsplit & Hstart & Hend).
  destruct Hat as [s|key value path body s Hin Hat]; [done|].
  apply Forall_cons in Hpath as [Hkey Hpath].
  pose proof (In_sanitized key value (JS.entries body) Hkey Hin) as Hkept.
  assert (Middleware.validateRequest body
          = Middleware.Valid (JS.JObj (JS.deleteProp "prototype" (JS.deleteProp "constructor"
                                         (JS.deleteProp "__proto__" (JS.entries body))))))
    as Hwired by (by destruct body).
  assert (data = SecurityGuide.deepSanitize
                   (JS.JObj (JS.deleteProp "prototype" (JS.deleteProp "constructor"
                              (JS.deleteProp "__proto__" (JS.entries body)))))) as ->.
  { destruct body; simpl in Hvalid; try discriminate; by injection Hvalid as <-. }
  repeat split; try done.
  - rewrite deepSanitize_object.
    apply (Payload.stringAt_step key
             (SecurityGuide.sanitizeValue SecurityGuide.deepSanitize value)).
    + by apply sanitizeEntries_In.
    + by apply sanitizeValue_stringAt.
  - eexists. split; [exact Hwired|].
    by apply (Payload.stringAt_step key value).
Qed.

Lemma validator_trims_and_truncates_witness :
  Payload.stringAt ["user"; "name"]
    (JS.JObj [("user", JS.JObj [("name", JS.JStr "Ann")])])
    (JS.slice0 1000 (JS.trim "  Ann ")).
Proof.
  refine (proj1 (validator_trims_and_truncates
                   (JS.JObj [("user", JS.JObj [("name", JS.JStr "  Ann ")])])
                   (JS.JObj [("user", JS.JObj [("name", JS.JStr "Ann")])])
                   ["user"; "name"] "  Ann " _ _ _)).
  - reflexivity.
  - apply (Payload.stringAt_step "user" (JS.JObj [("name", JS.JStr "  Ann ")])); [by left|].
    apply (Payload.stringAt_step "name" (JS.JStr "  Ann ")); [by left|].
    constructor.
  - repeat constructor.
Defined.

(** C4, as stated, fails on the validator that the routes call: the
    name comes back with its surrounding blanks, and a string of 1001
    characters comes back whole. *)
Lemma middleware_validateRequest_keeps_strings :
  let body := JS.JObj [("name", JS.JStr "  Ann  ");
                       ("bio", JS.JStr (Payload.repeatChar "a" 1001))] in
  Middleware.validateRequest body = Middleware.Valid body
  /\ Payload.stringAt ["name"] body "  Ann  "
  /\ ~ Payload.stringAt ["name"] body (JS.slice0 1000 (JS.trim "  Ann  "))
  /\ Payload.stringAt ["bio"] body (Payload.repeatChar "a" 1001)
  /\ String.length (Payload.repeatChar "a" 1001) = 1001%nat.
Proof.
  intros body. split; [by vm_compute|]. split; [|split; [|split]].
  - apply (Payload.stringAt_step "name" (JS.JStr "  Ann  ")); [by left|]. constructor.
  - intros H. inversion H as [|key value path o s Hin Hat]; subst.
    destruct Hin as [[= <-]|[[=]|[]]].
    inversion Hat.
  - apply (Payload.stringAt_step "bio" (JS.JStr (Payload.repeatChar "a" 1001)));
      [right; by left|]. constructor.
  - by vm_compute.
Qed.

(** ** The account store and the routes *)

Section StoreFacts.
Import JS MockAuthStore.

Lemma findUserByEmail_Some (e : string) (st : Store) (u : User) :
  findUserByEmail e st = Some u -> u ∈ users st /\ email u = e.
Proof.
  unfold findUserByEmail. intros [Hin Heq]%find_some.
  split; [by apply list_elem_of_In|by apply String.eqb_eq].
Qed.

Lemma findUserByEmail_None (e : string) (st : Store) :
  findUserByEmail e st = None <-> forall u, u ∈ users st -> email u <> e.
Proof.
  unfold findUserByEmail. split.
  - intros Hnone u Hin%list_elem_of_In.
    apply String.eqb_neq. apply (find_none _ _ Hnone u Hin).
  - intros Hall. destruct (find _ _) as [u|] eqn:Hfind; [|done].
    apply find_some in Hfind as [Hin%list_elem_of_In Heq%String.eqb_eq].
    by destruct (Hall u Hin).
Qed.

Lemma find_unique_email (e : string) (us : list User) (u : User) :
  NoDup (email <$> us) -> u ∈ us -> email u = e ->
  find (fun user => String.eqb (email user) e) us = Some u.
Proof.
  induction us as [|v r IH]; intros Hnd Hin He; [by apply elem_of_nil in Hin|].
  rewrite fmap_cons in Hnd. apply NoDup_cons in Hnd as [Hv Hr].
  simpl. destruct (String.eqb (email v) e) eqn:Heq.
  - apply String.eqb_eq in Heq.
    apply elem_of_cons in Hin as [->|Hin]; [done|].
    destruct Hv. rewrite Heq, <- He. by apply list_elem_of_fmap_2.
  - apply String.eqb_neq in Heq.
    apply elem_of_cons in Hin as [->|Hin]; [done|]. by apply IH.
Qed.

(** With unique e-mail addresses, the store hands out an account
    exactly for its address and its stored password. *)
Lemma authenticateUser_iff (t : Tick) (e p : string) (st : Store) (u : User) :
  NoDup (email <$> users st) ->
  fst (authenticateUser t e p st) = Some u
  <-> u ∈ users st /\ email u = e /\ password u = p.
Proof.
  intros Hnd. unfold authenticateUser. split.
  - destruct (findUserByEmail e st) as [v|] eqn:Hfind; [|done].
    apply findUserByEmail_Some in Hfind as [Hin He].
    destruct (String.eqb (password v) p) eqn:Hp; [|done].
    intros [= <-]. by apply String.eqb_eq in Hp.
  - intros (Hin & He & Hp).
    unfold findUserByEmail. rewrite (find_unique_email e _ u Hnd Hin He).
    by rewrite Hp, String.eqb_refl.
Qed.

(** Without any assumption on the store: no account is handed out
    when every account with the address has another password. *)
Lemma authenticateUser_wrong (t : Tick) (e p : string) (st : Store) :
  (forall u, u ∈ users st -> email u = e -> password u <> p) ->
  fst (authenticateUser t e p st) = None.
Proof.
  intros Hall. unfold authenticateUser.
  destruct (findUserByEmail e st) as [v|] eqn:Hfind; [|done].
  apply findUserByEmail_Some in Hfind as [Hin He].
  destruct (String.eqb (password v) p) eqn:Hp; [|done].
  apply String.eqb_eq in Hp. by destruct (Hall v Hin He).
Qed.

End StoreFacts.

Section RequestFacts.
Import JS Http.

Lemma getProp_deleteProp (key name : string) (fields : list (string * json)) :
  key <> name -> getProp key (deleteProp name fields) = getProp key fields.
Proof.
  intros Hne. induction fields as [|[k v] r IH]; [done|].
  simpl. destruct (String.eqb k name) eqn:Hk; simpl.
  - apply String.eqb_eq in Hk. subst k.
    rewrite IH. by apply String.eqb_neq in Hne; rewrite String.eqb_sym, Hne.
  - rewrite IH. done.
Qed.

(** What the handlers read from the validated body of an object. *)
Lemma validated_getProp (key : string) (fields : list (string * json)) :
  SecurityGuide.dangerous key = false ->
  exists data, Middleware.validateRequest (JObj fields) = Middleware.Valid data
               /\ getProp key (entries data) = getProp key fields.
Proof.
  intros (H1 & H2 & H3)%dangerous_false.
  eexists. split; [reflexivity|].
  simpl. by rewrite !getProp_deleteProp.
Qed.

Lemma isWhiteSpace_lowerChar (c : ascii) :
  isWhiteSpace (lowerChar c) = isWhiteSpace c.
Proof. by destruct c as [[] [] [] [] [] [] [] []]. Qed.

Lemma existsChar_toLowerCase (s : string) :
  existsChar isWhiteSpace (toLowerCase s) = existsChar isWhiteSpace s.
Proof.
  induction s as [|c r IH]; [done|].
  simpl. by rewrite isWhiteSpace_lowerChar, IH.
Qed.

Lemma trimEnd_no_space (s : string) :
  existsChar isWhiteSpace s = false -> trimEnd s = s.
Proof.
  induction s as [|c r IH]; [done|].
  simpl. intros [Hc Hr]%orb_false_iff.
  rewrite (IH Hr), Hc. by destruct r.
Qed.

Lemma trim_no_space (s : string) :
  existsChar isWhiteSpace s = false -> trim s = s.
Proof.
  intros Hs. unfold trim.
  assert (trimStart s = s) as ->; [|by apply trimEnd_no_space].
  destruct s as [|c r]; [done|].
  simpl in *. apply orb_false_iff in Hs as [-> _]. done.
Qed.

Lemma split_nonempty (sep : ascii) (s : string) : split sep s <> [].
Proof.
  destruct s as [|c r]; [done|].
  simpl. destruct (Ascii.eqb c sep); [done|]. by destruct (split sep r).
Qed.

Lemma join_cons (sep : ascii) (p q : string) (qs : list string) :
  join sep (p :: q :: qs) = p +:+ String sep (join sep (q :: qs)).
Proof. reflexivity. Qed.

Lemma join_split (sep : ascii) (s : string) : join sep (split sep s) = s.
Proof.
  induction s as [|c r IH]; [done|].
  pose proof (split_nonempty sep r) as Hne.
  cbn [split]. destruct (Ascii.eqb c sep) eqn:Hc.
  - apply Ascii.eqb_eq in Hc. subst c.
    destruct (split sep r) as [|p ps]; [done|].
    by rewrite join_cons, IH.
  - destruct (split sep r) as [|p ps]; [done|].
    destruct ps as [|q qs].
    + cbn [join] in *. by rewrite IH.
    + rewrite join_cons in *. by rewrite append_String, IH.
Qed.

Lemma split_two (sep : ascii) (s a d : string) :
  split sep s = [a; d] -> s = a +:+ String sep d.
Proof. intros Hs. by rewrite <- (join_split sep s), Hs. Qed.

Lemma existsChar_append (f : ascii -> bool) (a b : string) :
  existsChar f (a +:+ b) = existsChar f a || existsChar f b.
Proof.
  induction a as [|c r IH]; [done|].
  rewrite append_String. simpl. by rewrite IH, orb_assoc.
Qed.

(** An address that passes the pattern of the routes holds no white
    space, so that trimming its lower-case form changes nothing. *)
Lemma emailRegex_trim (e : string) :
  emailRegex_test e = true -> trim (toLowerCase e) = toLowerCase e.
Proof.
  unfold emailRegex_test. intros Hre.
  destruct (split "@" e) as [|a [|d [|? ?]]] eqn:Hsplit; try done.
  apply split_two in Hsplit. subst e.
  apply andb_true_iff in Hre as [[[_ Ha]%andb_true_iff Hd]%andb_true_iff _].
  apply negb_true_iff in Ha, Hd.
  apply trim_no_space. rewrite existsChar_toLowerCase, existsChar_append.
  simpl. by rewrite Ha, Hd.
Qed.

End RequestFacts.

Section LoginFacts.
Import JS Http MockAuthStore.

(** A login request that passes the origin guard and carries an
    address of the expected form and a non-empty password reaches the
    store; the response is decided by [authenticateUser] alone. *)
Lemma login_reaches_store (env : Middleware.Env) (request : Request) (t : Tick)
    (st : Store) (fields : list (string * json)) (e p : string) :
  Middleware.validateOrigin env (headers request) = true ->
  json_body request = Some (JObj fields) ->
  getProp "email" fields = Some (JStr e) ->
  getProp "password" fields = Some (JStr p) ->
  p <> EmptyString ->
  emailRegex_test e = true ->
  LoginRoute.POST env request t st
  = match authenticateUser t (toLowerCase e) p st with
    | (None, st') => Some (invalidCredentials, st')
    | (Some user, st') =>
        Some ({| status := 200;
                 body := JObj [("success", JBool true);
                               ("message", JStr "Login successful");
                               ("sessionId", JStr (id user));
                               ("user", JObj [("name", JStr (name user));
                                              ("email", JStr (email user))])] |},
              st')
    end.
Proof.
  intros Horigin Hbody Hemail Hpassword Hp Hre.
  unfold LoginRoute.POST. rewrite Horigin, Hbody.
  cbn [negb Middleware.rateLimit Middleware.allowed].
  destruct (validated_getProp "email" fields eq_refl) as (data & Hvalid & He).
  destruct (validated_getProp "password" fields eq_refl) as (data' & Hvalid' & Hpw).
  rewrite Hvalid in Hvalid'. injection Hvalid' as <-.
  rewrite Hvalid, He, Hpw, Hemail, Hpassword.
  assert (e <> EmptyString) as Hne by (by intros ->).
  cbn [truthy]. apply String.eqb_neq in Hne, Hp. rewrite Hne, Hp, Hre.
  cbn [negb orb]. by rewrite (emailRegex_trim e Hre).
Qed.

End LoginFacts.

(** C1 (amended): with unique addresses in the mock store,
    [MockAuthStore.authenticateUser] returns an account exactly when
    that account has the supplied address and the supplied password is
    its stored one; a well-formed login request is answered 200 exactly
    in that case, for the lower-case form of its address, and 401 with
    the generic message otherwise.  The [authenticateUser] query of the
    Convex backend does not read the password: it returns an account
    exactly when one has the supplied address. *)
Theorem login_succeeds_iff_credentials_match
    (st : MockAuthStore.Store) (t : MockAuthStore.Tick) (e p : string)
    (u : MockAuthStore.User)
    (env : Middleware.Env) (request : Http.Request)
    (fields : list (string * JS.json)) (address : string)
    (Hunique : NoDup (MockAuthStore.email <$> MockAuthStore.users st))
    (Horigin : Middleware.validateOrigin env (Http.headers request) = true)
    (Hbody : Http.json_body request = Some (JS.JObj fields))
    (Hemail : JS.getProp "email" fields = Some (JS.JStr address))
    (Hpassword : JS.getProp "password" fields = Some (JS.JStr p))
    (Hp : p <> EmptyString)
    (Hform : Http.emailRegex_test address = true) :
  (fst (MockAuthStore.authenticateUser t e p st) = Some u
   <-> u ∈ MockAuthStore.users st
       /\ MockAuthStore.email u = e /\ MockAuthStore.password u = p)
  /\ (exists response st',
        LoginRoute.POST env request t st = Some (response, st')
        /\ (Http.status response = 200
            <-> exists account, account ∈ MockAuthStore.users st
                  /\ MockAuthStore.email account = JS.toLowerCase address
                  /\ MockAuthStore.password account = p)
        /\ (Http.status response <> 200 -> response = Http.invalidCredentials))
  /\ (forall (db : Convex.Db) (supplied : string),
        is_Some (Convex.authenticateUser e supplied db)
        <-> exists account, account ∈ Convex.users db /\ Convex.user_email account = e).
Proof.
  split; [by apply authenticateUser_iff|]. split.
  - rewrite (login_reaches_store env request t st fields address p) by done.
    pose proof (authenticateUser_iff t (JS.toLowerCase address) p st) as Hiff.
    destruct (MockAuthStore.authenticateUser t (JS.toLowerCase address) p st)
      as [[account|] st'] eqn:Hauth; simpl in Hiff.
    + eexists _, st'. split; [done|]. split; [|done].
      split; [|done]. intros _. exists account. by apply Hiff.
    + eexists _, st'. split; [done|]. split; [|done].
      split; [done|]. intros (account & Hin & He & Hpw).
      by assert (None = Some account) by (by apply Hiff).
  - intros db supplied. unfold Convex.authenticateUser, Convex.firstUserByEmail. split.
    + intros [account [Hin Heq]%find_some].
      exists account. split; [by apply list_elem_of_In|by apply String.eqb_eq].
    + intros (account & Hin%list_elem_of_In & Heq).
      destruct (find _ _) as [found|] eqn:Hfind; [done|].
      apply (find_none _ _ Hfind) in Hin. simpl in Hin.
      by rewrite Heq, String.eqb_refl in Hin.
Qed.

Lemma login_succeeds_iff_credentials_match_witness :
  let t := {| MockAuthStore.now := 1000; MockAuthStore.random := "k3j9x" |} in
  exists response st',
    LoginRoute.POST
      {| Middleware.NODE_ENV := None; Middleware.NEXT_PUBLIC_APP_URL := None |}
      {| Http.headers := {| Middleware.origin := Some "http://localhost:3000";
                            Middleware.referer := None |};
         Http.json_body := Some (JS.JObj [("email", JS.JStr "Test@Example.com");
                                          ("password", JS.JStr "testpass123")]) |}
      t (MockAuthStore.initial t t) = Some (response, st')
    /\ (Http.status response = 200
        <-> exists account, account ∈ MockAuthStore.users (MockAuthStore.initial t t)
              /\ MockAuthStore.email account = JS.toLowerCase "Test@Example.com"
              /\ MockAuthStore.password account = "testpass123")
    /\ (Http.status response <> 200 -> response = Http.invalidCredentials).
Proof.
  intros t.
  refine (proj1 (proj2 (login_succeeds_iff_credentials_match
            (MockAuthStore.initial t t) t "test@example.com" "testpass123"
            {| MockAuthStore.id := "user_1000_k3j9x"; MockAuthStore.name := "Test User";
               MockAuthStore.email := "test@example.com";
               MockAuthStore.password := "testpass123"; MockAuthStore.createdAt := 1000 |}
            {| Middleware.NODE_ENV := None; Middleware.NEXT_PUBLIC_APP_URL := None |}
            {| Http.headers := {| Middleware.origin := Some "http://localhost:3000";
                                  Middleware.referer := None |};
               Http.json_body := Some (JS.JObj [("email", JS.JStr "Test@Example.com");
                                                ("password", JS.JStr "testpass123")]) |}
            [("email", JS.JStr "Test@Example.com"); ("password", JS.JStr "testpass123")]
            "Test@Example.com" _ _ _ _ _ _ _))).
  - simpl. apply NoDup_singleton.
  - reflexivity.
  - reflexivity.
  - reflexivity.
  - reflexivity.
  - discriminate.
  - reflexivity.
Defined.

(** C1, as stated, fails on the Convex backend: the account created
    with the password [testpass123] is returned for another
    password. *)
Lemma convex_authenticateUser_ignores_password :
  let db := snd (Convex.createUser 1000 "Test User" "test@example.com" "testpass123"
                   Convex.emptyDb) in
  "wrongpass" <> "testpass123"
  /\ Convex.authenticateUser "test@example.com" "wrongpass" db
     = Some {| Convex.user_id := 0%nat; Convex.user_name := "Test User";
               Convex.user_email := "test@example.com";
               Convex.emailVerificationTime := None |}.
Proof. split; [discriminate|reflexivity]. Qed.

(** C5: a login with an address that no account has and a login with
    the address of an account but another password get the same
    response, status 401 and the message [Invalid email or password]. *)
Theorem login_failures_are_indistinguishable
    (env : Middleware.Env) (st : MockAuthStore.Store)
    (request1 request2 : Http.Request) (t1 t2 : MockAuthStore.Tick)
    (fields1 fields2 : list (string * JS.json))
    (unknown known p1 p2 : string)
    (Horigin1 : Middleware.validateOrigin env (Http.headers request1) = true)
    (Horigin2 : Middleware.validateOrigin env (Http.headers request2) = true)
    (Hbody1 : Http.json_body request1 = Some (JS.JObj fields1))
    (Hbody2 : Http.json_body request2 = Some (JS.JObj fields2))
    (Hemail1 : JS.getProp "email" fields1 = Some (JS.JStr unknown))
    (Hemail2 : JS.getProp "email" fields2 = Some (JS.JStr known))
    (Hpassword1 : JS.getProp "password" fields1 = Some (JS.JStr p1))
    (Hpassword2 : JS.getProp "password" fields2 = Some (JS.JStr p2))
    (Hp1 : p1 <> EmptyString) (Hp2 : p2 <> EmptyString)
    (Hform1 : Http.emailRegex_test unknown = true)
    (Hform2 : Http.emailRegex_test known = true)
    (Hunknown : forall u, u ∈ MockAuthStore.users st ->
                          MockAuthStore.email u <> JS.toLowerCase unknown)
    (Hknown : exists u, u ∈ MockAuthStore.users st
                        /\ MockAuthStore.email u = JS.toLowerCase known)
    (Hwrong : forall u, u ∈ MockAuthStore.users st ->
                        MockAuthStore.email u = JS.toLowerCase known ->
                        MockAuthStore.password u <> p2) :
  exists response st1 st2,
    LoginRoute.POST env request1 t1 st = Some (response, st1)
    /\ LoginRoute.POST env request2 t2 st = Some (response, st2)
    /\ Http.status response = 401
    /\ Http.body response = JS.JObj [("error", JS.JStr "Invalid email or password")].
Proof.
  rewrite (login_reaches_store env request1 t1 st fields1 unknown p1) by done.
  rewrite (login_reaches_store env request2 t2 st fields2 known p2) by done.
  assert (fst (MockAuthStore.authenticateUser t1 (JS.toLowerCase unknown) p1 st) = None) as H1.
  { apply authenticateUser_wrong. intros u Hin He. by destruct (Hunknown u Hin). }
  pose proof (authenticateUser_wrong t2 (JS.toLowerCase known) p2 st Hwrong) as H2.
  destruct (MockAuthStore.authenticateUser t1 _ p1 st) as [r1 st1].
  destruct (MockAuthStore.authenticateUser t2 _ p2 st) as [r2 st2].
  simpl in H1, H2. subst r1 r2.
  by exists Http.invalidCredentials, st1, st2.
Qed.

Lemma login_failures_are_indistinguishable_witness :
  let t := {| MockAuthStore.now := 1000; MockAuthStore.random := "k3j9x" |} in
  let env := {| Middleware.NODE_ENV := None; Middleware.NEXT_PUBLIC_APP_URL := None |} in
  let h := {| Middleware.origin := Some "http://localhost:3000"; Middleware.referer := None |} in
  exists response st1 st2,
    LoginRoute.POST env
      {| Http.headers := h;
         Http.json_body := Some (JS.JObj [("email", JS.JStr "nobody@example.com");
                                          ("password", JS.JStr "wrongpass")]) |}
      t (MockAuthStore.initial t t) = Some (response, st1)
    /\ LoginRoute.POST env
         {| Http.headers := h;
            Http.json_body := Some (JS.JObj [("email", JS.JStr "test@example.com");
                                             ("password", JS.JStr "wrongpass")]) |}
         t (MockAuthStore.initial t t) = Some (response, st2)
    /\ Http.status response = 401
    /\ Http.body response = JS.JObj [("error", JS.JStr "Invalid email or password")].
Proof.
  intros t env h.
  refine (login_failures_are_indistinguishable env (MockAuthStore.initial t t)
            _ _ t t
            [("email", JS.JStr "nobody@example.com"); ("password", JS.JStr "wrongpass")]
            [("email", JS.JStr "test@example.com"); ("password", JS.JStr "wrongpass")]
            "nobody@example.com" "test@example.com" "wrongpass" "wrongpass"
            _ _ _ _ _ _ _ _ _ _ _ _ _ _ _);
    try reflexivity; try discriminate.
  - intros u [->|[]%elem_of_nil]%elem_of_cons. discriminate.
  - eexists. split; [by left|reflexivity].
  - intros u [->|[]%elem_of_nil]%elem_of_cons _. discriminate.
Defined.

Section RegisterFacts.
Import JS Http MockAuthStore.

(** A registration request that passes the origin guard and the field
    checks reaches the store; an account with the lower-case form of
    its address decides between conflict and creation. *)
Lemma register_reaches_store (env : Middleware.Env) (request : Request) (tu tl : Tick)
    (st : Store) (fields : list (string * json)) (e p : string) :
  Middleware.validateOrigin env (headers request) = true ->
  json_body request = Some (JObj fields) ->
  truthy (getProp "name" fields) = true ->
  getProp "email" fields = Some (JStr e) ->
  getProp "password" fields = Some (JStr p) ->
  (8 <= String.length p)%nat ->
  emailRegex_test e = true ->
  RegisterRoute.POST env request tu tl st
  = match findUserByEmail (toLowerCase e) st with
    | Some existingUser =>
        Some (errorResponse 409 "User with this email already exists", st)
    | None =>
        match getProp "name" fields with
        | Some (JStr n) =>
            Some ({| status := 201;
                     body := JObj [("success", JBool true);
                                   ("message", JStr "Account created successfully");
                                   ("sessionId",
                                    JStr (id (fst (createUser tu tl (trim n) (toLowerCase e) p st))))] |},
                  snd (createUser tu tl (trim n) (toLowerCase e) p st))
        | _ => Some (errorResponse 503 "Registration service temporarily unavailable", st)
        end
    end.
Proof.
  intros Horigin Hbody Hname Hemail Hpassword Hlen Hre.
  unfold RegisterRoute.POST. rewrite Horigin, Hbody.
  cbn [negb Middleware.rateLimit Middleware.allowed].
  destruct (validated_getProp "name" fields eq_refl) as (data & Hvalid & Hn).
  destruct (validated_getProp "email" fields eq_refl) as (data1 & Hvalid1 & He).
  destruct (validated_getProp "password" fields eq_refl) as (data2 & Hvalid2 & Hpw).
  rewrite Hvalid in Hvalid1, Hvalid2. injection Hvalid1 as <-. injection Hvalid2 as <-.
  rewrite Hvalid, Hn, He, Hpw, Hname, Hemail, Hpassword.
  assert (e <> EmptyString) as Hne by (by intros ->).
  assert (p <> EmptyString) as Hp by (intros ->; simpl in Hlen; lia).
  cbn [truthy]. apply String.eqb_neq in Hne, Hp. rewrite Hne, Hp, Hre.
  cbn [negb orb].
  assert ((String.length p <? 8)%nat = false) as -> by (apply Nat.ltb_ge; lia).
  rewrite (emailRegex_trim e Hre).
  destruct (findUserByEmail (toLowerCase e) st); [done|].
  destruct (getProp "name" fields) as [[]|]; try done.
Qed.

(** Whatever the request, the handler leaves the store as it is or
    adds one account whose address no account had. *)
Lemma register_store_change (env : Middleware.Env) (request : Request) (tu tl : Tick)
    (st st' : Store) (response : Response) :
  RegisterRoute.POST env request tu tl st = Some (response, st') ->
  st' = st
  \/ exists n e p, findUserByEmail e st = None
                   /\ st' = snd (createUser tu tl n e p st).
Proof.
  unfold RegisterRoute.POST.
  repeat match goal with
         | |- context [findUserByEmail ?e ?s] =>
             destruct (findUserByEmail e s) eqn:Hfind
         | |- context [createUser ?a ?b ?c ?d ?e ?s] =>
             destruct (createUser a b c d e s) eqn:Hcreate
         | |- context [if ?b then _ else _] => destruct b
         | |- context [match ?x with _ => _ end] => destruct x
         end;
    try (intros [= _ <-]; by left); try done.
  intros [= _ <-]. right. eexists _, _, _. split; [exact Hfind|]. by rewrite Hcreate.
Qed.

(** Registration keeps the addresses of the store unique. *)
Lemma register_keeps_unique (env : Middleware.Env) (request : Request) (tu tl : Tick)
    (st st' : Store) (response : Response) :
  RegisterRoute.POST env request tu tl st = Some (response, st') ->
  NoDup (email <$> users st) -> NoDup (email <$> users st').
Proof.
  intros [->|(n & e & p & Hfind & ->)]%register_store_change Hnd; [done|].
  cbn [createUser snd logAuthEvent users]. rewrite fmap_app.
  apply NoDup_app. split; [done|]. split; [|apply NoDup_singleton].
  intros a (u & -> & Hin)%list_elem_of_fmap Ha.
  apply list_elem_of_singleton in Ha. simpl in Ha.
  by apply (proj1 (findUserByEmail_None e st) Hfind u Hin).
Qed.

End RegisterFacts.

(** C6 (amended): the register route compares addresses without
    regard to letter case: when an account holds the lower-case form
    of the address of a registration request that passes the field
    checks, the response is the conflict 409 and the store is left as
    it is; and whatever the request, the addresses of the store stay
    unique.  The [register] mutation of the Convex backend compares
    the address as it is given: it refuses exactly when an account
    holds the identical address. *)
Theorem register_conflict_ignores_case
    (env : Middleware.Env) (request : Http.Request)
    (tu tl : MockAuthStore.Tick) (st : MockAuthStore.Store)
    (fields : list (string * JS.json)) (address p : string)
    (u : MockAuthStore.User)
    (Horigin : Middleware.validateOrigin env (Http.headers request) = true)
    (Hbody : Http.json_body request = Some (JS.JObj fields))
    (Hname : JS.truthy (JS.getProp "name" fields) = true)
    (Hemail : JS.getProp "email" fields = Some (JS.JStr address))
    (Hpassword : JS.getProp "password" fields = Some (JS.JStr p))
    (Hlen : (8 <= String.length p)%nat)
    (Hform : Http.emailRegex_test address = true)
    (Hstored : u ∈ MockAuthStore.users st)
    (Hcase : MockAuthStore.email u = JS.toLowerCase address) :
  RegisterRoute.POST env request tu tl st
    = Some (Http.errorResponse 409 "User with this email already exists", st)
  /\ (forall request' tu' tl' response st',
        RegisterRoute.POST env request' tu' tl' st = Some (response, st') ->
        NoDup (MockAuthStore.email <$> MockAuthStore.users st) ->
        NoDup (MockAuthStore.email <$> MockAuthStore.users st'))
  /\ (forall (now : Z) (n q : string) (db : Convex.Db),
        (exists message, Convex.register now n address q db = inl message)
        <-> exists account, account ∈ Convex.users db
                            /\ Convex.user_email account = address).
Proof.
  split; [|split].
  - rewrite (register_reaches_store env request tu tl st fields address p) by done.
    destruct (MockAuthStore.findUserByEmail (JS.toLowerCase address) st) eqn:Hfind; [done|].
    by destruct (proj1 (findUserByEmail_None _ _) Hfind u Hstored).
  - intros request' tu' tl' response st'. apply register_keeps_unique.
  - intros now n q db. unfold Convex.register, Convex.firstUserByEmail. split.
    + intros [message Hreg].
      destruct (find _ _) as [found|] eqn:Hfind; [|done].
      apply find_some in Hfind as [Hin Heq].
      exists found. split; [by apply list_elem_of_In|by apply String.eqb_eq].
    + intros (account & Hin%list_elem_of_In & Heq).
      destruct (find _ _) as [found|] eqn:Hfind; [by eexists|].
      apply (find_none _ _ Hfind) in Hin. simpl in Hin.
      by rewrite Heq, String.eqb_refl in Hin.
Qed.

Lemma register_conflict_ignores_case_witness :
  let t := {| MockAuthStore.now := 1000; MockAuthStore.random := "k3j9x" |} in
  RegisterRoute.POST
    {| Middleware.NODE_ENV := None; Middleware.NEXT_PUBLIC_APP_URL := None |}
    {| Http.headers := {| Middleware.origin := Some "http://localhost:3000";
                          Middleware.referer := None |};
       Http.json_body := Some (JS.JObj [("name", JS.JStr "Test User");
                                        ("email", JS.JStr "Test@Example.com");
                                        ("password", JS.JStr "testpass123")]) |}
    t t (MockAuthStore.initial t t)
  = Some (Http.errorResponse 409 "User with this email already exists",
          MockAuthStore.initial t t).
Proof.
  intros t.
  refine (proj1 (register_conflict_ignores_case _ _ t t (MockAuthStore.initial t t)
            [("name", JS.JStr "Test User"); ("email", JS.JStr "Test@Example.com");
             ("password", JS.JStr "testpass123")]
            "Test@Example.com" "testpass123"
            {| MockAuthStore.id := "user_1000_k3j9x"; MockAuthStore.name := "Test User";
               MockAuthStore.email := "test@example.com";
               MockAuthStore.password := "testpass123"; MockAuthStore.createdAt := 1000 |}
            _ _ _ _ _ _ _ _ _)); try reflexivity.
  - simpl. lia.
  - by left.
Defined.

(** C6, as stated, fails on the [register] mutation of the Convex
    backend: after [test@example.com], the address [Test@Example.com]
    is accepted and a second account is inserted. *)
Lemma convex_register_is_case_sensitive :
  exists uid1 db1 uid2 db2,
    Convex.register 1000 "Test User" "test@example.com" "testpass123" Convex.emptyDb
      = inr (uid1, db1)
    /\ JS.toLowerCase "Test@Example.com" = "test@example.com"
    /\ Convex.register 2000 "Test User" "Test@Example.com" "testpass123" db1
       = inr (uid2, db2)
    /\ Convex.user_email <$> Convex.users db2 = ["test@example.com"; "Test@Example.com"].
Proof. by eexists _, _, _, _. Qed.

(** ** The security log *)

(** C8 (amended): [getMyAuthLogs] of the Convex backend returns
    entries of the account in session only, the most recent first,
    and at most 50 of them (none without session; the simplified
    [convex/users.ts] always returns none).  [getAuthLogs] of the mock
    store returns all entries of the given account and only these, in
    the order of insertion, the oldest first, without bound. *)
Theorem auth_log_query
    (db : Convex.Db) (uid : Convex.Id)
    (st : MockAuthStore.Store) (account : string)
    (Haccount : account <> EmptyString) :
  (Forall (fun log => Convex.userId log = Some uid) (Convex.getMyAuthLogs (Some uid) db)
   /\ Convex.getMyAuthLogs (Some uid) db `sublist_of` reverse (Convex.authLogs db)
   /\ (List.length (Convex.getMyAuthLogs (Some uid) db) <= 50)%nat)
  /\ Convex.getMyAuthLogs None db = []
  /\ Convex.getMyAuthLogs_demo db = []
  /\ (Forall (fun log => MockAuthStore.userId log = account)
             (MockAuthStore.getAuthLogs (Some account) st)
      /\ MockAuthStore.getAuthLogs (Some account) st `sublist_of` MockAuthStore.authLogs st
      /\ forall log, log ∈ MockAuthStore.authLogs st ->
                     MockAuthStore.userId log = account ->
                     log ∈ MockAuthStore.getAuthLogs (Some account) st).
Proof.
  split; [|split; [done|split; [done|]]].
  - unfold Convex.getMyAuthLogs. split; [|split].
    + apply Forall_take, Forall_reverse, Forall_forall.
      by intros log [Hlog _]%list_elem_of_filter.
    + etrans; [apply sublist_take|].
      rewrite <- filter_reverse. apply sublist_filter.
    + rewrite length_take. lia.
  - unfold MockAuthStore.getAuthLogs.
    assert (JS.truthyStr (Some account) = true) as ->.
    { simpl. by apply negb_true_iff, String.eqb_neq. }
    simpl. split; [|split].
    + apply Forall_forall. by intros log [Hlog _]%list_elem_of_filter.
    + apply sublist_filter.
    + intros log Hin Hlog. by apply list_elem_of_filter.
Qed.

Lemma auth_log_query_witness :
  let t := {| MockAuthStore.now := 1000; MockAuthStore.random := "k3j9x" |} in
  Forall (fun log => MockAuthStore.userId log = "user_1000_k3j9x")
         (MockAuthStore.getAuthLogs (Some "user_1000_k3j9x") (MockAuthStore.initial t t)).
Proof.
  intros t.
  refine (proj1 (proj2 (proj2 (proj2 (auth_log_query Convex.emptyDb 0%nat
            (MockAuthStore.initial t t) "user_1000_k3j9x" _))))).
  discriminate.
Defined.

(** C8, as stated, fails on the mock store: after the registration
    and 51 logins of the test user the query returns 52 entries, the
    registration, which is the oldest, first. *)
Lemma mock_getAuthLogs_oldest_first_unbounded :
  let t0 := {| MockAuthStore.now := 1000; MockAuthStore.random := "k3j9x" |} in
  let request (i : nat) :=
    ({| Http.headers := {| Middleware.origin := Some "http://localhost:3000";
                           Middleware.referer := None |};
        Http.json_body := Some (JS.JObj [("email", JS.JStr "test@example.com");
                                         ("password", JS.JStr "testpass123")]) |},
     {| MockAuthStore.now := 1001 + Z.of_nat i; MockAuthStore.random := "k3j9x" |}) in
  let st := snd (LoginRoute.serve
                   {| Middleware.NODE_ENV := None; Middleware.NEXT_PUBLIC_APP_URL := None |}
                   (request <$> seq 0 51) (MockAuthStore.initial t0 t0)) in
  let logs := MockAuthStore.getAuthLogs (Some "user_1000_k3j9x") st in
  List.length logs = 52%nat
  /\ (MockAuthStore.timestamp <$> logs) !! 0%nat = Some 1000
  /\ (MockAuthStore.timestamp <$> logs) !! 51%nat = Some 1051
  /\ ~ logs `sublist_of` reverse (MockAuthStore.authLogs st).
Proof.
  intros t0 request st logs.
  split; [by vm_compute|]. split; [by vm_compute|]. split; [by vm_compute|].
  assert (exists x l1 y l2,
            logs = x :: l1 /\ reverse (MockAuthStore.authLogs st) = y :: l2
            /\ x <> y /\ (List.length l2 < List.length (x :: l1))%nat)
    as (x & l1 & y & l2 & Hlogs & Hrev & Hne & Hlen).
  { vm_compute. eexists _, _, _, _.
    split; [reflexivity|]. split; [reflexivity|]. split; [discriminate|].
    vm_compute. lia. }
  rewrite Hlogs, Hrev. intros Hsub.
  apply sublist_cons_r in Hsub as [Hsub|(l' & [= ? ?] & _)]; [|done].
  apply sublist_length in Hsub. lia.
Qed.

(** ** The address pattern of the routes *)

Section EmailPattern.
Import JS Http.

Lemma split_parts (sep : ascii) (s : string) :
  Forall (fun p => existsChar (Ascii.eqb sep) p = false) (split sep s).
Proof.
  induction s as [|c r IH]; [by repeat constructor|].
  simpl. destruct (Ascii.eqb c sep) eqn:Hc.
  - by constructor.
  - destruct (split sep r) as [|p ps].
    + constructor; [|constructor]. simpl. by rewrite Ascii.eqb_sym, Hc.
    + apply Forall_cons in IH as [Hp Hps]. constructor; [|done].
      simpl. by rewrite Ascii.eqb_sym, Hc, Hp.
Qed.

Lemma append_empty (b : string) : EmptyString +:+ b = b.
Proof. reflexivity. Qed.

Lemma dotBeforeLast_spec (r : string) :
  dotBeforeLast r = true
  <-> exists x c, r = x +:+ "." +:+ c /\ c <> EmptyString.
Proof.
  induction r as [|ch r IH].
  - split; [done|]. intros (x & c & Heq & _). by destruct x.
  - destruct r as [|ch' r'].
    + split; [done|]. intros (x & c & Heq & Hc). destruct x as [|a x'].
      * rewrite append_empty, append_String, append_empty in Heq. by injection Heq as _ <-.
      * rewrite append_String in Heq. injection Heq as _ Heq. by destruct x'.
    + change (dotBeforeLast (String ch (String ch' r')))
        with (Ascii.eqb ch "." || dotBeforeLast (String ch' r')).
      rewrite orb_true_iff, IH. split.
      * intros [->%Ascii.eqb_eq|(x & c & Heq & Hc)].
        -- by exists EmptyString, (String ch' r').
        -- exists (String ch x), c. by rewrite append_String, <- Heq.
      * intros (x & c & Heq & Hc). destruct x as [|a x'].
        -- left. rewrite append_empty, append_String, append_empty in Heq.
           injection Heq as -> _. apply Ascii.eqb_refl.
        -- right. rewrite append_String in Heq. injection Heq as -> Heq.
           by exists x', c.
Qed.

Lemma innerDot_spec (d : string) :
  innerDot d = true
  <-> exists b c, d = b +:+ "." +:+ c /\ b <> EmptyString /\ c <> EmptyString.
Proof.
  destruct d as [|ch r]; simpl.
  - split; [done|]. intros (b & c & Heq & _). by destruct b.
  - rewrite dotBeforeLast_spec. split.
    + intros (x & c & -> & Hc). by exists (String ch x), c.
    + intros (b & c & Heq & Hb & Hc). destruct b as [|a x]; [done|].
      rewrite append_String in Heq. injection Heq as _ ->. by exists x, c.
Qed.

Lemma existsChar_orb (f g : ascii -> bool) (s : string) :
  existsChar (fun c => f c || g c) s = existsChar f s || existsChar g s.
Proof.
  induction s as [|c r IH]; [done|].
  simpl. rewrite IH. by destruct (f c), (g c), (existsChar f r).
Qed.

(** [emailRegex_test] decides the pattern. *)
Lemma emailRegex_test_spec (s : string) :
  emailRegex_test s = true <-> matchesEmailPattern s.
Proof.
  unfold emailRegex_test, matchesEmailPattern, token. split.
  - pose proof (split_parts "@" s) as Hparts.
    destruct (split "@" s) as [|a [|d [|? ?]]] eqn:Hsplit; try done.
    apply split_two in Hsplit.
    apply Forall_cons in Hparts as [Ha' [Hd' _]%Forall_cons].
    intros [[[Ha Hwa]%andb_true_iff Hwd]%andb_true_iff Hdot]%andb_true_iff.
    apply negb_true_iff in Ha, Hwa, Hwd. apply String.eqb_neq in Ha.
    apply innerDot_spec in Hdot as (b & c & -> & Hb & Hc).
    rewrite !existsChar_append in Hwd, Hd'. simpl in Hwd, Hd'.
    apply orb_false_iff in Hwd as [Hwb Hwc], Hd' as [Hb' Hc'].
    exists a, b, c. rewrite !(existsChar_orb isWhiteSpace (Ascii.eqb "@")).
    by rewrite Hwa, Hwb, Hwc, Ha', Hb', Hc'.
  - intros (a & b & c & -> & [Ha Hta] & [Hb Htb] & [Hc Htc]).
    rewrite (existsChar_orb isWhiteSpace (Ascii.eqb "@")) in Hta, Htb, Htc.
    apply orb_false_iff in Hta as [Hwa Ha'], Htb as [Hwb Hb'], Htc as [Hwc Hc'].
    change ("@" +:+ b +:+ "." +:+ c) with (String "@" (b +:+ "." +:+ c)).
    rewrite (split_app_sep _ _ _ Ha'), split_no_sep.
    + apply andb_true_iff. split; [|apply innerDot_spec; by exists b, c].
      rewrite !existsChar_append. simpl. rewrite Hwa, Hwb, Hwc.
      by apply String.eqb_neq in Ha as ->.
    + rewrite !existsChar_append. simpl. by rewrite Hb', Hc'.
Qed.

End EmailPattern.

(** * Further properties *)

(** ** The origin guard of the middleware *)

Section OriginGuardFacts.
Import JS Middleware.

Lemma startsWith_append (a b : string) : startsWith (a +:+ b) a = true.
Proof.
  unfold startsWith. induction a as [|c r IH]; [by destruct b|].
  rewrite append_String. simpl. by destruct (ascii_dec c c).
Qed.

Lemma append_nonempty (a b : string) : a <> EmptyString -> a +:+ b <> EmptyString.
Proof. destruct a; [done|]. by rewrite append_String. Qed.

End OriginGuardFacts.

(** In production mode a referer that merely begins with the
    configured application URL, or with [http://localhost:3000], is
    accepted whatever follows the prefix and whatever the origin. *)
Theorem validateOrigin_referer_prefix
    (url suffix : string) (o appUrl : option string)
    (Hurl : url <> EmptyString) :
  Middleware.validateOrigin
    {| Middleware.NODE_ENV := Some "production"; Middleware.NEXT_PUBLIC_APP_URL := Some url |}
    {| Middleware.origin := o; Middleware.referer := Some (url +:+ suffix) |} = true
  /\ Middleware.validateOrigin
       {| Middleware.NODE_ENV := Some "production"; Middleware.NEXT_PUBLIC_APP_URL := appUrl |}
       {| Middleware.origin := o;
          Middleware.referer := Some ("http://localhost:3000" +:+ suffix) |} = true.
Proof.
  split.
  - unfold Middleware.validateOrigin. cbn -[JS.startsWith String.eqb].
    rewrite startsWith_append.
    assert (String.eqb (url +:+ suffix) EmptyString = false) as ->.
    { by apply String.eqb_neq, append_nonempty. }
    rewrite bool_decide_eq_true_2 by done.
    cbn [negb andb orb]. by destruct (_ && _).
  - unfold Middleware.validateOrigin. cbn -[JS.startsWith String.eqb JS.truthyStr].
    rewrite bool_decide_eq_true_2 by done.
    rewrite (startsWith_append "http://localhost:3000" suffix).
    rewrite orb_true_r.
    assert (JS.truthyStr (Some ("http://localhost:3000" +:+ suffix)) = true) as ->.
    { reflexivity. }
    cbn [andb negb]. by destruct (_ && _).
Qed.

Lemma validateOrigin_referer_prefix_witness :
  Middleware.validateOrigin
    {| Middleware.NODE_ENV := Some "production";
       Middleware.NEXT_PUBLIC_APP_URL := Some "https://app.example" |}
    {| Middleware.origin := Some "https://app.example.evil.test";
       Middleware.referer := Some ("https://app.example" +:+ ".evil.test/login") |} = true.
Proof.
  refine (proj1 (validateOrigin_referer_prefix "https://app.example" ".evil.test/login"
                   (Some "https://app.example.evil.test") None _)).
  discriminate.
Defined.

(** In production mode with the application URL configured, a request
    whose origin is neither that URL nor [http://localhost:3000] and
    which has no referer is refused, and both routes answer it with
    403 before reading the body, leaving the store as it is. *)
Theorem foreign_origin_is_forbidden
    (url o : string) (request : Http.Request)
    (t tu tl : MockAuthStore.Tick) (st : MockAuthStore.Store)
    (Ho : o <> EmptyString)
    (Hurl : o <> url)
    (Hlocal : o <> "http://localhost:3000")
    (Horigin : Middleware.origin (Http.headers request) = Some o)
    (Hreferer : Middleware.referer (Http.headers request) = None) :
  let env := {| Middleware.NODE_ENV := Some "production";
                Middleware.NEXT_PUBLIC_APP_URL := Some url |} in
  Middleware.validateOrigin env (Http.headers request) = false
  /\ LoginRoute.POST env request t st
     = Some (Http.errorResponse 403 "Invalid origin", st)
  /\ RegisterRoute.POST env request tu tl st
     = Some (Http.errorResponse 403 "Invalid origin", st).
Proof.
  intros env.
  assert (Middleware.validateOrigin env (Http.headers request) = false) as Hguard.
  { unfold Middleware.validateOrigin. rewrite Horigin, Hreferer.
    cbn -[String.eqb]. rewrite bool_decide_eq_true_2 by done.
    apply String.eqb_neq in Ho, Hurl, Hlocal. by rewrite Ho, Hurl, Hlocal. }
  split; [done|].
  unfold LoginRoute.POST, RegisterRoute.POST. by rewrite Hguard.
Qed.

Lemma foreign_origin_is_forbidden_witness :
  let t := {| MockAuthStore.now := 1000; MockAuthStore.random := "k3j9x" |} in
  LoginRoute.POST
    {| Middleware.NODE_ENV := Some "production";
       Middleware.NEXT_PUBLIC_APP_URL := Some "https://app.example" |}
    {| Http.headers := {| Middleware.origin := Some "https://evil.example";
                          Middleware.referer := None |};
       Http.json_body := None |}
    t (MockAuthStore.initial t t)
  = Some (Http.errorResponse 403 "Invalid origin", MockAuthStore.initial t t).
Proof.
  intros t.
  refine (proj1 (proj2 (foreign_origin_is_forbidden "https://app.example"
            "https://evil.example" _ t t t (MockAuthStore.initial t t) _ _ _ _ _)));
    try reflexivity; discriminate.
Defined.

(** ** The login route in general *)

(** Membership in a list given by its elements. *)
Ltac listed := repeat first [apply list_elem_of_here | apply list_elem_of_further].

Ltac not_listed H :=
  repeat (apply elem_of_cons in H as [H|H]; [done|]); by apply elem_of_nil in H.

Section LoginRouteFacts.
Import JS Http MockAuthStore.

(** Every run of the login handler either stops before the store, with
    one of the error responses and the store as it was, or ends in the
    call of [authenticateUser] for the lower-case address. *)
Lemma login_cases (env : Middleware.Env) (request : Request) (t : Tick)
    (st st' : Store) (response : Response) :
  LoginRoute.POST env request t st = Some (response, st') ->
  (st' = st /\ status response ∈ [400; 403; 500])
  \/ exists rawBody data address p,
       json_body request = Some rawBody
       /\ Middleware.validateRequest rawBody = Middleware.Valid data
       /\ getProp "email" (entries data) = Some (JStr address)
       /\ getProp "password" (entries data) = Some (JStr p)
       /\ emailRegex_test address = true
       /\ st' = snd (authenticateUser t (toLowerCase address) p st)
       /\ response
          = match fst (authenticateUser t (toLowerCase address) p st) with
            | None => invalidCredentials
            | Some user =>
                {| status := 200;
                   body := JObj [("success", JBool true);
                                 ("message", JStr "Login successful");
                                 ("sessionId", JStr (id user));
                                 ("user", JObj [("name", JStr (name user));
                                                ("email", JStr (email user))])] |}
            end.
Proof.
  unfold LoginRoute.POST.
  destruct (negb (Middleware.validateOrigin _ _));
    [intros [= <- <-]; left; split; [done|simpl; listed]|].
  cbn [Middleware.rateLimit Middleware.allowed negb].
  destruct (json_body request) as [rawBody|];
    [|intros [= <- <-]; left; split; [done|simpl; listed]].
  destruct (Middleware.validateRequest rawBody) as [e|data] eqn:Hvalid;
    [intros [= <- <-]; left; split; [done|simpl; listed]|].
  destruct (negb _ || negb _);
    [intros [= <- <-]; left; split; [done|simpl; listed]|].
  destruct (getProp "email" (entries data)) as [[ | | |address| | ]|] eqn:Hemail; try done.
  destruct (getProp "password" (entries data)) as [[ | | |p| | ]|] eqn:Hpassword; try done.
  destruct (emailRegex_test address) eqn:Hre; cbn [negb];
    [|intros [= <- <-]; left; split; [done|simpl; listed]].
  rewrite (emailRegex_trim address Hre).
  destruct (authenticateUser t (toLowerCase address) p st) as [[user|] st1] eqn:Hauth;
    intros [= <- <-]; right; exists rawBody, data, address, p; by rewrite ?Hauth.
Qed.

Lemma authenticateUser_store (t : Tick) (e p : string) (st : Store) :
  users (snd (authenticateUser t e p st)) = users st
  /\ exists log, authLogs (snd (authenticateUser t e p st)) = (authLogs st ++ [log])%list
                 /\ success log = bool_decide (is_Some (fst (authenticateUser t e p st)))
                 /\ (fst (authenticateUser t e p st) = None ->
                     action log = "user_login_failed"
                     /\ userId log = EmptyString /\ log_email log = e).
Proof.
  unfold authenticateUser.
  destruct (findUserByEmail e st) as [user|]; [destruct (String.eqb _ _)|];
    (split; [done|]); eexists; (split; [reflexivity|]); by split.
Qed.

End LoginRouteFacts.



(** A 200 from the login route is only ever given for a stored account
    whose address is the lower-case form of the address of the request
    and whose stored password is the password of the request; the
    response carries the identifier, name and address of that
    account. *)
Theorem login_success_is_sound
    (env : Middleware.Env) (request : Http.Request) (t : MockAuthStore.Tick)
    (st st' : MockAuthStore.Store) (response : Http.Response)
    (Hrun : LoginRoute.POST env request t st = Some (response, st'))
    (Hok : Http.status response = 200) :
  exists rawBody data address p user,
    Http.json_body request = Some rawBody
    /\ Middleware.validateRequest rawBody = Middleware.Valid data
    /\ JS.getProp "email" (JS.entries data) = Some (JS.JStr address)
    /\ JS.getProp "password" (JS.entries data) = Some (JS.JStr p)
    /\ user ∈ MockAuthStore.users st
    /\ MockAuthStore.email user = JS.toLowerCase address
    /\ MockAuthStore.password user = p
    /\ Http.body response
       = JS.JObj [("success", JS.JBool true);
                  ("message", JS.JStr "Login successful");
                  ("sessionId", JS.JStr (MockAuthStore.id user));
                  ("user", JS.JObj [("name", JS.JStr (MockAuthStore.name user));
                                    ("email", JS.JStr (MockAuthStore.email user))])].
Proof.
  apply login_cases in Hrun
    as [[_ Hstatus]|(rawBody & data & address & p & Hbody & Hvalid & He & Hp & _ & _ & ->)].
  { rewrite Hok in Hstatus. not_listed Hstatus. }
  unfold MockAuthStore.authenticateUser in *.
  destruct (MockAuthStore.findUserByEmail (JS.toLowerCase address) st) as [user|] eqn:Hfind;
    [|done].
  destruct (String.eqb (MockAuthStore.password user) p) eqn:Hpw; [|done].
  apply findUserByEmail_Some in Hfind as [Hin Hemail]. apply String.eqb_eq in Hpw.
  by exists rawBody, data, address, p, user.
Qed.

Lemma login_success_is_sound_witness :
  let t := {| MockAuthStore.now := 1000; MockAuthStore.random := "k3j9x" |} in
  exists user, user ∈ MockAuthStore.users (MockAuthStore.initial t t)
               /\ MockAuthStore.password user = "testpass123".
Proof.
  intros t.
  destruct (login_success_is_sound
              {| Middleware.NODE_ENV := None; Middleware.NEXT_PUBLIC_APP_URL := None |}
              {| Http.headers := {| Middleware.origin := None; Middleware.referer := None |};
                 Http.json_body := Some (JS.JObj [("email", JS.JStr "Test@Example.com");
                                                  ("password", JS.JStr "testpass123")]) |}
              t (MockAuthStore.initial t t) _ _ eq_refl eq_refl)
    as (rawBody & data & address & p & user & Hbody & Hvalid & He & Hp & Hin & _ & Hpw & _).
  exists user. split; [exact Hin|].
  rewrite Hpw. injection Hbody as <-. injection Hvalid as <-.
  by injection Hp as <-.
Defined.

(** A login refused with 401 appends exactly one entry to the log:
    action [user_login_failed], no account identifier, no success, and
    the lower-case address of the request in full, not masked. *)
Theorem failed_login_is_logged_unmasked
    (env : Middleware.Env) (request : Http.Request) (t : MockAuthStore.Tick)
    (st st' : MockAuthStore.Store) (response : Http.Response)
    (Hrun : LoginRoute.POST env request t st = Some (response, st'))
    (Hrefused : Http.status response = 401) :
  exists rawBody data address log,
    Http.json_body request = Some rawBody
    /\ Middleware.validateRequest rawBody = Middleware.Valid data
    /\ JS.getProp "email" (JS.entries data) = Some (JS.JStr address)
    /\ MockAuthStore.authLogs st' = (MockAuthStore.authLogs st ++ [log])%list
    /\ MockAuthStore.action log = "user_login_failed"
    /\ MockAuthStore.userId log = EmptyString
    /\ MockAuthStore.log_email log = JS.toLowerCase address
    /\ MockAuthStore.success log = false.
Proof.
  apply login_cases in Hrun
    as [[_ Hstatus]|(rawBody & data & address & p & Hbody & Hvalid & He & Hp & _ & -> & ->)].
  { rewrite Hrefused in Hstatus. not_listed Hstatus. }
  destruct (authenticateUser_store t (JS.toLowerCase address) p st)
    as (_ & log & Hlogs & Hsuccess & Hfailed).
  destruct (fst (MockAuthStore.authenticateUser t (JS.toLowerCase address) p st)) as [user|];
    [done|].
  destruct (Hfailed eq_refl) as (Ha & Hu & Hm).
  exists rawBody, data, address, log. rewrite Hsuccess.
  repeat split; done.
Qed.

Lemma failed_login_is_logged_unmasked_witness :
  let t := {| MockAuthStore.now := 1000; MockAuthStore.random := "k3j9x" |} in
  exists st' log,
    MockAuthStore.authLogs st' = (MockAuthStore.authLogs (MockAuthStore.initial t t) ++ [log])%list
    /\ MockAuthStore.log_email log = "nobody@example.com".
Proof.
  intros t.
  destruct (failed_login_is_logged_unmasked
              {| Middleware.NODE_ENV := None; Middleware.NEXT_PUBLIC_APP_URL := None |}
              {| Http.headers := {| Middleware.origin := None; Middleware.referer := None |};
                 Http.json_body := Some (JS.JObj [("email", JS.JStr "Nobody@Example.com");
                                                  ("password", JS.JStr "whatever")]) |}
              t (MockAuthStore.initial t t) _ _ eq_refl eq_refl)
    as (rawBody & data & address & log & Hbody & Hvalid & He & Hlogs & _ & _ & Hm & _).
  eexists _, log. split; [exact Hlogs|].
  rewrite Hm. injection Hbody as <-. injection Hvalid as <-.
  by injection He as <-.
Defined.

(** ** The register route in general *)

Section RegisterRouteFacts.
Import JS Http MockAuthStore.

(** Every run of the register handler either leaves the store as it
    was, with one of the error responses, or creates one account from
    the trimmed name, the lower-case address and the password of the
    request, in a store that had no account with that address. *)
Lemma register_cases (env : Middleware.Env) (request : Request) (tu tl : Tick)
    (st st' : Store) (response : Response) :
  RegisterRoute.POST env request tu tl st = Some (response, st') ->
  (st' = st /\ status response ∈ [400; 403; 409; 500; 503])
  \/ exists rawBody data n address p,
       json_body request = Some rawBody
       /\ Middleware.validateRequest rawBody = Middleware.Valid data
       /\ getProp "name" (entries data) = Some (JStr n)
       /\ getProp "email" (entries data) = Some (JStr address)
       /\ getProp "password" (entries data) = Some (JStr p)
       /\ (8 <= String.length p)%nat
       /\ emailRegex_test address = true
       /\ findUserByEmail (toLowerCase address) st = None
       /\ st' = snd (createUser tu tl (trim n) (toLowerCase address) p st)
       /\ response
          = {| status := 201;
               body := JObj [("success", JBool true);
                             ("message", JStr "Account created successfully");
                             ("sessionId",
                              JStr (id (fst (createUser tu tl (trim n)
                                               (toLowerCase address) p st))))] |}.
Proof.
  unfold RegisterRoute.POST.
  destruct (negb (Middleware.validateOrigin _ _));
    [intros [= <- <-]; left; split; [done|simpl; listed]|].
  cbn [Middleware.rateLimit Middleware.allowed negb].
  destruct (json_body request) as [rawBody|];
    [|intros [= <- <-]; left; split; [done|simpl; listed]].
  destruct (Middleware.validateRequest rawBody) as [e|data] eqn:Hvalid;
    [intros [= <- <-]; left; split; [done|simpl; listed]|].
  destruct (negb _ || negb _ || negb _);
    [intros [= <- <-]; left; split; [done|simpl; listed]|].
  destruct (getProp "password" (entries data)) as [[ | | |p| | ]|] eqn:Hpassword; try done.
  destruct (getProp "email" (entries data)) as [[ | | |address| | ]|] eqn:Hemail; try done.
  destruct (String.length p <? 8)%nat eqn:Hlen;
    [intros [= <- <-]; left; split; [done|simpl; listed]|].
  apply Nat.ltb_ge in Hlen.
  destruct (emailRegex_test address) eqn:Hre; cbn [negb];
    [|intros [= <- <-]; left; split; [done|simpl; listed]].
  rewrite (emailRegex_trim address Hre).
  destruct (findUserByEmail (toLowerCase address) st) as [existing|] eqn:Hfind;
    [intros [= <- <-]; left; split; [done|simpl; listed]|].
  destruct (getProp "name" (entries data)) as [[ | | |n| | ]|] eqn:Hname;
    try (intros [= <- <-]; left; split; [done|simpl; listed]).
  destruct (createUser tu tl (trim n) (toLowerCase address) p st) as [newUser st1] eqn:Hcreate.
  intros [= <- <-]. right. exists rawBody, data, n, address, p.
  rewrite Hcreate. by repeat split.
Qed.

Lemma find_app_None {A} (f : A -> bool) (l k : list A) :
  find f l = None -> find f (l ++ k) = find f k.
Proof.
  induction l as [|x l IH]; [done|].
  simpl. destruct (f x); [done|]. apply IH.
Qed.

Lemma find_app_Some {A} (f : A -> bool) (l k : list A) (x : A) :
  find f l = Some x -> find f (l ++ k) = Some x.
Proof.
  induction l as [|y l IH]; [done|].
  simpl. destruct (f y); [done|]. apply IH.
Qed.

End RegisterRouteFacts.

Lemma find_after_createUser
    (tu tl : MockAuthStore.Tick) (n e p other : string) (st : MockAuthStore.Store)
    (Hother : other <> e) :
  let created := MockAuthStore.createUser tu tl n e p st in
  MockAuthStore.users (snd created) = (MockAuthStore.users st ++ [fst created])%list
  /\ MockAuthStore.findUserByEmail e (snd created)
     = Some (default (fst created) (MockAuthStore.findUserByEmail e st))
  /\ MockAuthStore.findUserByEmail other (snd created)
     = MockAuthStore.findUserByEmail other st.
Proof.
  intros created. split; [done|].
  unfold MockAuthStore.findUserByEmail. cbn [created MockAuthStore.createUser snd fst
    MockAuthStore.logAuthEvent MockAuthStore.users].
  split.
  - destruct (find _ (MockAuthStore.users st)) as [old|] eqn:Hfind.
    + by rewrite (find_app_Some _ _ _ _ Hfind).
    + rewrite (find_app_None _ _ _ Hfind). simpl. by rewrite String.eqb_refl.
  - destruct (find _ (MockAuthStore.users st)) as [old|] eqn:Hfind.
    + by rewrite (find_app_Some _ _ _ _ Hfind).
    + rewrite (find_app_None _ _ _ Hfind). simpl.
      apply not_eq_sym, String.eqb_neq in Hother. by rewrite Hother.
Qed.

(** [createUser] never refuses: it appends the account even when the
    address is taken.  A lookup by that address afterwards returns the
    account that held it before, if any, and the new account
    otherwise; lookups by other addresses are not affected. *)
Theorem createUser_then_find
    (tu tl : MockAuthStore.Tick) (n e p other : string) (st : MockAuthStore.Store)
    (Hother : other <> e) :
  let created := MockAuthStore.createUser tu tl n e p st in
  MockAuthStore.users (snd created) = (MockAuthStore.users st ++ [fst created])%list
  /\ MockAuthStore.findUserByEmail e (snd created)
     = Some (default (fst created) (MockAuthStore.findUserByEmail e st))
  /\ MockAuthStore.findUserByEmail other (snd created)
     = MockAuthStore.findUserByEmail other st.
Proof. by apply find_after_createUser. Qed.

Lemma createUser_then_find_witness :
  let t := {| MockAuthStore.now := 2000; MockAuthStore.random := "p0q1r" |} in
  let t0 := {| MockAuthStore.now := 1000; MockAuthStore.random := "k3j9x" |} in
  MockAuthStore.password
    <$> MockAuthStore.findUserByEmail "test@example.com"
          (snd (MockAuthStore.createUser t t "Second" "test@example.com" "otherpass"
                  (MockAuthStore.initial t0 t0)))
  = Some "testpass123".
Proof.
  intros t t0.
  pose proof (createUser_then_find t t "Second" "test@example.com" "otherpass"
                "nobody@example.com" (MockAuthStore.initial t0 t0)) as H.
  destruct H as (_ & H & _); [discriminate|].
  rewrite H. reflexivity.
Defined.



(** A registration that is not answered 201 leaves the store as it is;
    the other answers are 400, 403, 409, 500 and 503, never 429. *)
Theorem register_failure_changes_nothing
    (env : Middleware.Env) (request : Http.Request) (tu tl : MockAuthStore.Tick)
    (st st' : MockAuthStore.Store) (response : Http.Response)
    (Hrun : RegisterRoute.POST env request tu tl st = Some (response, st'))
    (Hfailed : Http.status response <> 201) :
  st' = st /\ Http.status response ∈ [400; 403; 409; 500; 503].
Proof.
  apply register_cases in Hrun
    as [[-> Hstatus]|(rawBody & data & n & address & p & _ & _ & _ & _ & _ & _ & _ & _ & _ & ->)];
    done.
Qed.

Lemma register_failure_changes_nothing_witness :
  let t0 := {| MockAuthStore.now := 1000; MockAuthStore.random := "k3j9x" |} in
  exists st', st' = MockAuthStore.initial t0 t0.
Proof.
  intros t0. eexists.
  refine (proj1 (register_failure_changes_nothing
            {| Middleware.NODE_ENV := None; Middleware.NEXT_PUBLIC_APP_URL := None |}
            {| Http.headers := {| Middleware.origin := None; Middleware.referer := None |};
               Http.json_body := Some (JS.JObj [("name", JS.JStr "Short");
                                                ("email", JS.JStr "new@example.com");
                                                ("password", JS.JStr "short")]) |}
            t0 t0 (MockAuthStore.initial t0 t0) _ _ eq_refl _)).
  discriminate.
Defined.

(** ** Registration followed by login *)

(** After a registration that passes the checks for an address no
    account has, a login with the same password and with the address
    in any letter case is answered 200; it carries the session
    identifier that the registration returned, the trimmed name and
    the lower-case address. *)
Theorem register_then_login
    (env : Middleware.Env) (registration attempt : Http.Request)
    (tu tl t : MockAuthStore.Tick) (st : MockAuthStore.Store)
    (fields fields' : list (string * JS.json)) (n address address' p : string)
    (Horigin : Middleware.validateOrigin env (Http.headers registration) = true)
    (Horigin' : Middleware.validateOrigin env (Http.headers attempt) = true)
    (Hbody : Http.json_body registration = Some (JS.JObj fields))
    (Hbody' : Http.json_body attempt = Some (JS.JObj fields'))
    (Hname : JS.getProp "name" fields = Some (JS.JStr n))
    (Hn : n <> EmptyString)
    (Hemail : JS.getProp "email" fields = Some (JS.JStr address))
    (Hpassword : JS.getProp "password" fields = Some (JS.JStr p))
    (Hemail' : JS.getProp "email" fields' = Some (JS.JStr address'))
    (Hpassword' : JS.getProp "password" fields' = Some (JS.JStr p))
    (Hlen : (8 <= String.length p)%nat)
    (Hform : Http.emailRegex_test address = true)
    (Hform' : Http.emailRegex_test address' = true)
    (Hcase : JS.toLowerCase address' = JS.toLowerCase address)
    (Hfree : forall u, u ∈ MockAuthStore.users st ->
                       MockAuthStore.email u <> JS.toLowerCase address) :
  exists sessionId st1 st2,
    RegisterRoute.POST env registration tu tl st
    = Some ({| Http.status := 201;
               Http.body := JS.JObj [("success", JS.JBool true);
                                     ("message", JS.JStr "Account created successfully");
                                     ("sessionId", JS.JStr sessionId)] |}, st1)
    /\ LoginRoute.POST env attempt t st1
       = Some ({| Http.status := 200;
                  Http.body :=
                    JS.JObj [("success", JS.JBool true);
                             ("message", JS.JStr "Login successful");
                             ("sessionId", JS.JStr sessionId);
                             ("user", JS.JObj [("name", JS.JStr (JS.trim n));
                                               ("email", JS.JStr (JS.toLowerCase address))])] |},
               st2).
Proof.
  assert (JS.truthy (JS.getProp "name" fields) = true) as Htruthy.
  { rewrite Hname. simpl. by apply negb_true_iff, String.eqb_neq. }
  assert (p <> EmptyString) as Hp by (intros ->; simpl in Hlen; lia).
  rewrite (register_reaches_store env registration tu tl st fields address p) by done.
  rewrite (proj2 (findUserByEmail_None _ _) Hfree), Hname.
  eexists _, _, _. split; [reflexivity|].
  rewrite (login_reaches_store env attempt t _ fields' address' p) by done.
  rewrite Hcase.
  unfold MockAuthStore.authenticateUser.
  destruct (find_after_createUser tu tl (JS.trim n) (JS.toLowerCase address) p
              (String "x" (JS.toLowerCase address)) st) as (_ & Hfind & _).
  { intros Heq. apply (f_equal String.length) in Heq. simpl in Heq. lia. }
  rewrite Hfind, (proj2 (findUserByEmail_None _ _) Hfree).
  cbn [default from_option id MockAuthStore.createUser fst MockAuthStore.password].
  by rewrite String.eqb_refl.
Qed.

Lemma register_then_login_witness :
  let t := {| MockAuthStore.now := 2000; MockAuthStore.random := "p0q1r" |} in
  let t0 := {| MockAuthStore.now := 1000; MockAuthStore.random := "k3j9x" |} in
  let h := {| Middleware.origin := None; Middleware.referer := None |} in
  let env := {| Middleware.NODE_ENV := None; Middleware.NEXT_PUBLIC_APP_URL := None |} in
  exists sessionId st1 st2,
    RegisterRoute.POST env
      {| Http.headers := h;
         Http.json_body := Some (JS.JObj [("name", JS.JStr "New User");
                                          ("email", JS.JStr "New@Example.com");
                                          ("password", JS.JStr "longenough")]) |}
      t t (MockAuthStore.initial t0 t0)
    = Some ({| Http.status := 201;
               Http.body := JS.JObj [("success", JS.JBool true);
                                     ("message", JS.JStr "Account created successfully");
                                     ("sessionId", JS.JStr sessionId)] |}, st1)
    /\ LoginRoute.POST env
         {| Http.headers := h;
            Http.json_body := Some (JS.JObj [("email", JS.JStr "NEW@example.com");
                                             ("password", JS.JStr "longenough")]) |}
         t st1
       = Some ({| Http.status := 200;
                  Http.body :=
                    JS.JObj [("success", JS.JBool true);
                             ("message", JS.JStr "Login successful");
                             ("sessionId", JS.JStr sessionId);
                             ("user", JS.JObj [("name", JS.JStr (JS.trim "New User"));
                                               ("email",
                                                JS.JStr (JS.toLowerCase "New@Example.com"))])] |},
               st2).
Proof.
  intros t t0 h env.
  refine (register_then_login env _ _ t t t (MockAuthStore.initial t0 t0)
            [("name", JS.JStr "New User"); ("email", JS.JStr "New@Example.com");
             ("password", JS.JStr "longenough")]
            [("email", JS.JStr "NEW@example.com"); ("password", JS.JStr "longenough")]
            "New User" "New@Example.com" "NEW@example.com" "longenough"
            _ _ _ _ _ _ _ _ _ _ _ _ _ _ _); try reflexivity; try discriminate.
  - simpl. lia.
  - intros u [->|[]%elem_of_nil]%elem_of_cons. discriminate.
Defined.

(** ** The validator of the middleware, applied twice *)

Section ValidateTwice.
Import JS.

Lemma deleteProp_fixed (key : string) (fields : list (string * json)) :
  Forall (fun kv => fst kv <> key) fields -> deleteProp key fields = fields.
Proof.
  induction 1 as [|[k v] r Hk _ IH]; [done|].
  unfold deleteProp in *. simpl in *.
  apply String.eqb_neq in Hk. by rewrite Hk, IH.
Qed.

Lemma deleteProp_Forall (P : string * json -> Prop) (key : string)
    (fields : list (string * json)) :
  Forall P fields -> Forall P (deleteProp key fields).
Proof.
  intros H. apply Forall_forall. intros kv [Hin _]%list_elem_of_In%filter_In.
  by apply (proj1 (Forall_forall _ _) H), list_elem_of_In.
Qed.

Lemma deleteProp_gone (key : string) (fields : list (string * json)) :
  Forall (fun kv => fst kv <> key) (deleteProp key fields).
Proof.
  apply Forall_forall. intros kv [_ Hk]%list_elem_of_In%filter_In.
  by apply negb_true_iff, String.eqb_neq in Hk.
Qed.

End ValidateTwice.

(** The validator of the middleware accepts its own output and returns
    it unchanged: what it has cleaned needs no second pass. *)
Theorem middleware_validateRequest_idempotent (body data : JS.json)
    (Hvalid : Middleware.validateRequest body = Middleware.Valid data) :
  Middleware.validateRequest data = Middleware.Valid data.
Proof.
  assert (data = JS.JObj (JS.deleteProp "prototype" (JS.deleteProp "constructor"
                            (JS.deleteProp "__proto__" (JS.entries body))))) as ->.
  { destruct body; simpl in Hvalid; try discriminate; by injection Hvalid as <-. }
  cbn [Middleware.validateRequest JS.entries]. do 2 f_equal.
  pose proof (deleteProp_gone "__proto__" (JS.entries body)) as H1.
  pose proof (deleteProp_gone "constructor"
                (JS.deleteProp "__proto__" (JS.entries body))) as H2.
  pose proof (deleteProp_gone "prototype"
                (JS.deleteProp "constructor" (JS.deleteProp "__proto__" (JS.entries body))))
    as H3.
  rewrite (deleteProp_fixed "__proto__") by by do 2 apply deleteProp_Forall.
  rewrite (deleteProp_fixed "constructor") by by apply deleteProp_Forall.
  by rewrite (deleteProp_fixed "prototype").
Qed.

Lemma middleware_validateRequest_idempotent_witness :
  Middleware.validateRequest (JS.JObj [("email", JS.JStr "a@b.c")])
  = Middleware.Valid (JS.JObj [("email", JS.JStr "a@b.c")]).
Proof.
  exact (middleware_validateRequest_idempotent
           (JS.JObj [("email", JS.JStr "a@b.c"); ("constructor", JS.JNull)])
           (JS.JObj [("email", JS.JStr "a@b.c")]) eq_refl).
Defined.

(** ** The rate limiter of the guide in general *)

Section RateLimiterMore.
Import SecurityGuide.

Lemma filter_filter_weaker (P Q : Z -> Prop) `{!forall t, Decision (P t)}
    `{!forall t, Decision (Q t)} (l : list Z) :
  (forall t, P t -> Q t) -> filter P (filter Q l) = filter P l.
Proof.
  intros HPQ. induction l as [|t l IH]; [done|].
  rewrite !filter_cons. destruct (decide (Q t)) as [HQ|HQ].
  - rewrite filter_cons. destruct (decide (P t)); by rewrite IH.
  - rewrite IH. destruct (decide (P t)) as [HP|]; [|done]. destruct HQ. by apply HPQ.
Qed.

(** The recorded instants of an identifier after [cleanup]. *)
Lemma cleanup_lookup (now : Z) (identifier : string) (st : LimiterState) :
  default [] (requests (cleanup now st) !! identifier)
  = filter (fun t => now - 3600000 < t) (default [] (requests st !! identifier)).
Proof.
  cbn [cleanup requests]. rewrite lookup_omap.
  destruct (requests st !! identifier) as [l|]; [|done].
  simpl. case_bool_decide as Hlen; [|done].
  simpl. by apply nil_length_inv in Hlen as ->.
Qed.

(** The answer of [isAllowed] rests on the recorded instants of its
    own identifier alone. *)
Lemma isAllowed_answer (now windowMs maxRequests : Z) (identifier : string)
    (st : LimiterState) :
  fst (isAllowed now identifier windowMs maxRequests st)
  = negb (bool_decide
            (maxRequests
             <= Z.of_nat (List.length (filter (fun t => now - windowMs < t)
                                               (default [] (requests st !! identifier)))))).
Proof. unfold isAllowed. by case_bool_decide. Qed.

End RateLimiterMore.

(** A call for one identifier leaves the recorded instants of every
    other identifier as they are, and does not change the answer that
    any later call for another identifier gets. *)
Theorem isAllowed_identifiers_are_independent
    (now now' windowMs windowMs' maxRequests maxRequests' : Z)
    (identifier other : string) (st : SecurityGuide.LimiterState)
    (Hother : other <> identifier) :
  let st' := snd (SecurityGuide.isAllowed now identifier windowMs maxRequests st) in
  SecurityGuide.requests st' !! other = SecurityGuide.requests st !! other
  /\ fst (SecurityGuide.isAllowed now' other windowMs' maxRequests' st')
     = fst (SecurityGuide.isAllowed now' other windowMs' maxRequests' st).
Proof.
  intros st'.
  assert (SecurityGuide.requests st' !! other = SecurityGuide.requests st !! other) as Hsame.
  { subst st'. unfold SecurityGuide.isAllowed. case_bool_decide; simpl; [done|].
    by rewrite lookup_insert_ne. }
  split; [done|]. by rewrite !isAllowed_answer, Hsame.
Qed.

Lemma isAllowed_identifiers_are_independent_witness :
  let st := {| SecurityGuide.requests := {["198.51.100.4" := [5; 6]]};
               SecurityGuide.securityLog := [] |} in
  SecurityGuide.requests
    (snd (SecurityGuide.isAllowed 10 "203.0.113.7" 900000 10 st)) !! "198.51.100.4"
  = Some [5; 6].
Proof.
  intros st.
  refine (eq_trans (proj1 (isAllowed_identifiers_are_independent 10 10 900000 900000 10 10
                             "203.0.113.7" "198.51.100.4" st _)) _).
  - discriminate.
  - reflexivity.
Defined.

(** With a fixed maximum, no identifier ever has more recorded
    instants than the maximum: if that holds before a call, it holds
    after it, whatever the answer. *)
Theorem isAllowed_keeps_bound
    (now windowMs maxRequests : Z) (identifier : string)
    (st : SecurityGuide.LimiterState)
    (Hbound : forall key (l : list Z),
        SecurityGuide.requests st !! key = Some l -> Z.of_nat (List.length l) <= maxRequests) :
  forall key (l : list Z),
    SecurityGuide.requests
      (snd (SecurityGuide.isAllowed now identifier windowMs maxRequests st)) !! key = Some l ->
    Z.of_nat (List.length l) <= maxRequests.
Proof.
  intros key l. unfold SecurityGuide.isAllowed.
  case_bool_decide as Hfull; simpl; [apply Hbound|].
  destruct (decide (key = identifier)) as [->|Hne].
  - rewrite lookup_insert_eq. intros [= <-]. rewrite length_app. simpl. lia.
  - rewrite lookup_insert_ne by done. apply Hbound.
Qed.

Lemma isAllowed_keeps_bound_witness :
  SecurityGuide.requests
    (snd (SecurityGuide.isAllowed 10 "203.0.113.7" 900000 10
            {| SecurityGuide.requests := ∅; SecurityGuide.securityLog := [] |}))
    !! "203.0.113.7" = Some [10]
  /\ Z.of_nat (List.length [10]) <= 10.
Proof.
  assert (SecurityGuide.requests
            (snd (SecurityGuide.isAllowed 10 "203.0.113.7" 900000 10
                    {| SecurityGuide.requests := ∅; SecurityGuide.securityLog := [] |}))
            !! "203.0.113.7" = Some [10]) as Hrecorded by (vm_compute; reflexivity).
  split; [exact Hrecorded|].
  apply (isAllowed_keeps_bound 10 900000 10 "203.0.113.7"
           {| SecurityGuide.requests := ∅; SecurityGuide.securityLog := [] |}
           ltac:(intros key l Hl; simpl in Hl; by rewrite lookup_empty in Hl)
           "203.0.113.7" [10] Hrecorded).
Defined.

(** A denied call records nothing, and writes one entry of medium
    severity to the security log with the number of instants in the
    window; the threshold in that entry is 10 whatever maximum the
    call was given.  An allowed call writes nothing to the log. *)
Theorem isAllowed_denial_is_logged
    (now windowMs maxRequests : Z) (identifier : string)
    (st : SecurityGuide.LimiterState) :
  let counted := List.length (filter (fun t => now - windowMs < t)
                                (default [] (SecurityGuide.requests st !! identifier))) in
  let result := SecurityGuide.isAllowed now identifier windowMs maxRequests st in
  (fst result = false ->
   maxRequests <= Z.of_nat counted
   /\ SecurityGuide.requests (snd result) = SecurityGuide.requests st
   /\ SecurityGuide.securityLog (snd result)
      = (SecurityGuide.securityLog st
         ++ [{| SecurityGuide.sa_timestamp := now;
                SecurityGuide.sa_type := "rate_limit_exceeded";
                SecurityGuide.sa_severity := "medium";
                SecurityGuide.sa_ip := identifier;
                SecurityGuide.sa_requestCount := counted;
                SecurityGuide.sa_threshold := 10 |}])%list)
  /\ (fst result = true ->
      Z.of_nat counted < maxRequests
      /\ SecurityGuide.securityLog (snd result) = SecurityGuide.securityLog st).
Proof.
  intros counted result. subst counted result. unfold SecurityGuide.isAllowed.
  case_bool_decide as Hfull; simpl; split; try done.
  intros _. split; [lia|done].
Qed.

(** After [cleanup] every identifier that is still known has at least
    one recorded instant and only instants of the last hour, namely
    those it had; an identifier is dropped exactly when it had no
    instant of the last hour. *)
Theorem cleanup_keeps_last_hour
    (now : Z) (identifier : string) (st : SecurityGuide.LimiterState)
    (recorded : list Z)
    (Hrecorded : SecurityGuide.requests st !! identifier = Some recorded) :
  let recent := filter (fun t => now - 3600000 < t) recorded in
  (recent = [] ->
   SecurityGuide.requests (SecurityGuide.cleanup now st) !! identifier = None)
  /\ (recent <> [] ->
      SecurityGuide.requests (SecurityGuide.cleanup now st) !! identifier = Some recent)
  /\ Forall (fun t => now - 3600000 < t) recent.
Proof.
  intros recent. cbn [SecurityGuide.cleanup SecurityGuide.requests].
  rewrite lookup_omap, Hrecorded. simpl. fold recent.
  split; [|split].
  - intros ->. done.
  - intros Hne. case_bool_decide as Hlen; [|done].
    by apply nil_length_inv in Hlen.
  - apply Forall_forall. by intros t [Ht _]%list_elem_of_filter.
Qed.

Lemma cleanup_keeps_last_hour_witness :
  SecurityGuide.requests
    (SecurityGuide.cleanup 4000000
       {| SecurityGuide.requests := {["203.0.113.7" := [1; 3999999]]};
          SecurityGuide.securityLog := [] |}) !! "203.0.113.7"
  = Some [3999999].
Proof.
  refine (proj1 (proj2 (cleanup_keeps_last_hour 4000000 "203.0.113.7"
            {| SecurityGuide.requests := {["203.0.113.7" := [1; 3999999]]};
               SecurityGuide.securityLog := [] |} [1; 3999999] _)) _).
  - reflexivity.
  - discriminate.
Defined.

(** [cleanup] does not change any later answer: a call of [isAllowed]
    with a window of at most one hour gets the same answer whether or
    not [cleanup] ran before it. *)
Theorem cleanup_does_not_change_answers
    (swept now windowMs maxRequests : Z) (identifier : string)
    (st : SecurityGuide.LimiterState)
    (Horder : swept <= now)
    (Hwindow : windowMs <= 3600000) :
  fst (SecurityGuide.isAllowed now identifier windowMs maxRequests
         (SecurityGuide.cleanup swept st))
  = fst (SecurityGuide.isAllowed now identifier windowMs maxRequests st).
Proof.
  rewrite !isAllowed_answer, cleanup_lookup.
  rewrite (filter_filter_weaker (fun t => now - windowMs < t)
             (fun t => swept - 3600000 < t)); [done|].
  intros t Ht. lia.
Qed.

Lemma cleanup_does_not_change_answers_witness :
  let st := {| SecurityGuide.requests := {["203.0.113.7" := [1; 3999999]]};
               SecurityGuide.securityLog := [] |} in
  fst (SecurityGuide.isAllowed 4000001 "203.0.113.7" 900000 1
         (SecurityGuide.cleanup 4000000 st))
  = fst (SecurityGuide.isAllowed 4000001 "203.0.113.7" 900000 1 st).
Proof.
  intros st.
  apply (cleanup_does_not_change_answers 4000000 4000001 900000 1 "203.0.113.7" st); lia.
Defined.

(** ** Masking, at the edges *)

(** An address without [@] has no domain to keep: the mask ends in
    [@undefined], after at most two characters of the text. *)
Theorem maskEmail_without_at (text : string)
    (Htext : JS.existsChar (Ascii.eqb "@") text = false) :
  SecurityGuide.maskEmail text = JS.slice0 2 text +:+ "***@undefined".
Proof.
  unfold SecurityGuide.maskEmail. rewrite (split_no_sep _ _ Htext).
  cbn [lookup list_lookup default from_option id].
  case_bool_decide as Hlen; [|done]. by rewrite (slice0_all _ _ Hlen).
Qed.

Lemma maskEmail_without_at_witness :
  SecurityGuide.maskEmail "administrator" = JS.slice0 2 "administrator" +:+ "***@undefined".
Proof. apply maskEmail_without_at. reflexivity. Defined.

(** Of an address with more than one [@] only the text up to the
    second [@] counts: whatever follows it is dropped from the mask. *)
Theorem maskEmail_drops_after_second_at (localPart domain rest : string)
    (Hlocal : JS.existsChar (Ascii.eqb "@") localPart = false)
    (Hdomain : JS.existsChar (Ascii.eqb "@") domain = false) :
  SecurityGuide.maskEmail (localPart +:+ "@" +:+ domain +:+ "@" +:+ rest)
  = JS.slice0 2 localPart +:+ "***@" +:+ domain.
Proof.
  unfold SecurityGuide.maskEmail.
  change ("@" +:+ domain +:+ "@" +:+ rest) with (String "@" (domain +:+ String "@" rest)).
  rewrite (split_app_sep _ _ _ Hlocal), (split_app_sep _ _ _ Hdomain).
  cbn [lookup list_lookup default from_option id].
  case_bool_decide as Hlen; [|done]. by rewrite (slice0_all _ _ Hlen).
Qed.

Lemma maskEmail_drops_after_second_at_witness :
  SecurityGuide.maskEmail ("alice" +:+ "@" +:+ "example.com" +:+ "@" +:+ "secret")
  = JS.slice0 2 "alice" +:+ "***@" +:+ "example.com".
Proof. apply maskEmail_drops_after_second_at; reflexivity. Defined.

(** ** The validator of the guide and arrays *)

Section ArrayFacts.
Import JS SecurityGuide Payload Shape.




End ArrayFacts.



(** ** The origin guard of the guide *)

(** The [validateOrigin] of the guide refuses a request that has
    neither origin nor referer, in every environment, and in
    production mode without a configured origin it refuses every
    request. *)
Theorem guide_validateOrigin_refuses_bare_requests
    (env : GuideOrigin.Env) (h : Middleware.Headers) :
  GuideOrigin.validateOrigin env
    {| Middleware.origin := None; Middleware.referer := None |} = false
  /\ GuideOrigin.validateOrigin
       {| GuideOrigin.NODE_ENV := Some "production";
          GuideOrigin.NEXT_PUBLIC_APP_URL := None;
          GuideOrigin.ADDITIONAL_ALLOWED_ORIGIN := None |} h = false.
Proof.
  split.
  - unfold GuideOrigin.validateOrigin. cbn [Middleware.origin Middleware.referer
      GuideOrigin.optStartsWith orb andb]. rewrite !andb_false_r.
    induction (GuideOrigin.filterBoolean _) as [|a l IH]; [done|].
    cbn [existsb]. by rewrite bool_decide_eq_false_2.
  - unfold GuideOrigin.validateOrigin. cbn [GuideOrigin.NODE_ENV].
    rewrite bool_decide_eq_true_2 by done. reflexivity.
Qed.

(** ** The address and password rules of the guide *)

Section CredentialFacts.
Import JS CredentialPolicy.

Lemma toLowerCase_length (s : string) : String.length (toLowerCase s) = String.length s.
Proof. induction s as [|c r IH]; [done|]. simpl. by rewrite IH. Qed.

Lemma lowerChar_idempotent (c : ascii) : lowerChar (lowerChar c) = lowerChar c.
Proof. by destruct c as [[] [] [] [] [] [] [] []]. Qed.

Lemma toLowerCase_idempotent (s : string) : toLowerCase (toLowerCase s) = toLowerCase s.
Proof. induction s as [|c r IH]; [done|]. simpl. by rewrite lowerChar_idempotent, IH. Qed.

Lemma lowerChar_at (c : ascii) : Ascii.eqb (lowerChar c) "@" = Ascii.eqb c "@".
Proof. by destruct c as [[] [] [] [] [] [] [] []]. Qed.

Lemma lowerChar_dot (c : ascii) : Ascii.eqb (lowerChar c) "." = Ascii.eqb c ".".
Proof. by destruct c as [[] [] [] [] [] [] [] []]. Qed.

Lemma lowerChar_local (c : ascii) : isLocalChar c = true -> isLocalChar (lowerChar c) = true.
Proof. by destruct c as [[] [] [] [] [] [] [] []]. Qed.

Lemma lowerChar_alnum (c : ascii) : isAlnum c = true -> isAlnum (lowerChar c) = true.
Proof. by destruct c as [[] [] [] [] [] [] [] []]. Qed.

Lemma lowerChar_label (c : ascii) :
  isAlnum c || Ascii.eqb c "-" = true ->
  isAlnum (lowerChar c) || Ascii.eqb (lowerChar c) "-" = true.
Proof. by destruct c as [[] [] [] [] [] [] [] []]. Qed.

Lemma lowerChar_special (c : ascii) : isSpecial (lowerChar c) = isSpecial c.
Proof. by destruct c as [[] [] [] [] [] [] [] []]. Qed.

Lemma local_not_space (c : ascii) : isLocalChar c = true -> isWhiteSpace c = false.
Proof. by destruct c as [[] [] [] [] [] [] [] []]. Qed.

Lemma label_not_space (c : ascii) :
  isAlnum c || Ascii.eqb c "-" = true -> isWhiteSpace c = false.
Proof. by destruct c as [[] [] [] [] [] [] [] []]. Qed.

(** Splitting commutes with lower-casing when no character becomes
    the separator. *)
Lemma split_toLowerCase (sep : ascii) (s : string) :
  (forall c, Ascii.eqb (lowerChar c) sep = Ascii.eqb c sep) ->
  split sep (toLowerCase s) = toLowerCase <$> split sep s.
Proof.
  intros Hsep. induction s as [|c r IH]; [done|].
  cbn [toLowerCase split]. rewrite Hsep, IH.
  destruct (Ascii.eqb c sep); [done|]. by destruct (split sep r).
Qed.

Lemma allChars_forall (f : ascii -> bool) (s : string) :
  allChars f s = true <-> existsChar (fun c => negb (f c)) s = false.
Proof. unfold allChars. by rewrite negb_true_iff. Qed.

Lemma allChars_cons (f : ascii -> bool) (c : ascii) (r : string) :
  allChars f (String c r) = f c && allChars f r.
Proof. unfold allChars. simpl. by destruct (f c). Qed.

Lemma allChars_toLowerCase (f : ascii -> bool) (s : string) :
  (forall c, f c = true -> f (lowerChar c) = true) ->
  allChars f s = true -> allChars f (toLowerCase s) = true.
Proof.
  intros Hf. induction s as [|c r IH]; [done|].
  cbn [toLowerCase]. rewrite !allChars_cons.
  intros [Hc Hr]%andb_true_iff. by rewrite (Hf c Hc), (IH Hr).
Qed.

Lemma allChars_exclude (f g : ascii -> bool) (s : string) :
  (forall c, f c = true -> g c = false) ->
  allChars f s = true -> existsChar g s = false.
Proof.
  intros Hfg. induction s as [|c r IH]; [done|].
  rewrite allChars_cons. intros [Hc Hr]%andb_true_iff.
  simpl. by rewrite (Hfg c Hc), (IH Hr).
Qed.

Lemma lastChar_toLowerCase (s : string) :
  lastChar (toLowerCase s) = lowerChar <$> lastChar s.
Proof.
  induction s as [|c r IH]; [done|].
  destruct r as [|c' r']; [done|].
  change (lastChar (toLowerCase (String c (String c' r'))))
    with (lastChar (toLowerCase (String c' r'))).
  by rewrite IH.
Qed.

Lemma isLabel_toLowerCase (l : string) :
  isLabel l = true -> isLabel (toLowerCase l) = true.
Proof.
  destruct l as [|c r]; [done|].
  unfold isLabel. cbn [toLowerCase].
  change (String (lowerChar c) (toLowerCase r)) with (toLowerCase (String c r)).
  rewrite toLowerCase_length, lastChar_toLowerCase.
  intros [[[Hc Hlen]%andb_true_iff Hall]%andb_true_iff Hlast]%andb_true_iff.
  rewrite (lowerChar_alnum c Hc), Hlen.
  rewrite (allChars_toLowerCase _ _ lowerChar_label Hall).
  destruct (lastChar (String c r)) as [z|]; [|done].
  simpl. by rewrite (lowerChar_alnum z Hlast).
Qed.

Lemma isLabel_no_space (l : string) :
  isLabel l = true -> existsChar isWhiteSpace l = false.
Proof.
  destruct l as [|c r]; [done|]. unfold isLabel.
  intros [[_ Hall]%andb_true_iff _]%andb_true_iff.
  by apply (allChars_exclude _ _ _ label_not_space).
Qed.

Lemma existsChar_join (g : ascii -> bool) (sep : ascii) (parts : list string) :
  g sep = false ->
  Forall (fun p => existsChar g p = false) parts ->
  existsChar g (join sep parts) = false.
Proof.
  intros Hsep. induction 1 as [|p ps Hp Hps IH]; [done|].
  destruct ps as [|q qs]; [done|].
  rewrite join_cons, existsChar_append. cbn [existsChar]. by rewrite Hp, Hsep, IH.
Qed.

(** The parts of an address that the pattern of the guide accepts. *)
Lemma EMAIL_REGEX_parts (email : string) :
  EMAIL_REGEX_test email = true ->
  exists localPart domain,
    split "@" email = [localPart; domain]
    /\ email = localPart +:+ "@" +:+ domain
    /\ localPart <> EmptyString
    /\ allChars isLocalChar localPart = true
    /\ forallb isLabel (split "." domain) = true.
Proof.
  unfold EMAIL_REGEX_test.
  destruct (split "@" email) as [|localPart [|domain [|? ?]]] eqn:Hsplit; try done.
  intros [[Hne Hlocal]%andb_true_iff Hlabels]%andb_true_iff.
  exists localPart, domain. apply split_two in Hsplit.
  apply negb_true_iff, String.eqb_neq in Hne. done.
Qed.

Lemma EMAIL_REGEX_no_space (email : string) :
  EMAIL_REGEX_test email = true -> existsChar isWhiteSpace email = false.
Proof.
  intros (localPart & domain & _ & -> & _ & Hlocal & Hlabels)%EMAIL_REGEX_parts.
  rewrite existsChar_append.
  rewrite (allChars_exclude _ _ _ local_not_space Hlocal).
  change ("@" +:+ domain) with (String "@" domain). simpl.
  rewrite <- (join_split "." domain). apply existsChar_join; [done|].
  apply Forall_forall. intros l Hl%list_elem_of_In.
  apply isLabel_no_space. by apply (proj1 (forallb_forall _ _) Hlabels).
Qed.

Lemma EMAIL_REGEX_toLowerCase (email : string) :
  EMAIL_REGEX_test email = true -> EMAIL_REGEX_test (toLowerCase email) = true.
Proof.
  intros (localPart & domain & Hsplit & _ & Hne & Hlocal & Hlabels)%EMAIL_REGEX_parts.
  unfold EMAIL_REGEX_test.
  rewrite (split_toLowerCase "@" email lowerChar_at), Hsplit. cbn [fmap list_fmap].
  rewrite (allChars_toLowerCase _ _ lowerChar_local Hlocal).
  rewrite (split_toLowerCase "." domain lowerChar_dot).
  assert (String.eqb (toLowerCase localPart) EmptyString = false) as ->.
  { apply String.eqb_neq. by destruct localPart. }
  cbn [negb andb]. apply forallb_forall.
  intros l (l0 & -> & Hl0)%list_elem_of_In%list_elem_of_fmap.
  apply isLabel_toLowerCase.
  by apply (proj1 (forallb_forall _ _) Hlabels), list_elem_of_In.
Qed.

Lemma validateEmail_inv (email : string) (data : option string) :
  validateEmail email = Ok data ->
  exists localPart domain,
    split "@" email = [localPart; domain]
    /\ EMAIL_REGEX_test email = true
    /\ (String.length email <= 254)%nat
    /\ (String.length localPart <= 64)%nat
    /\ isDisposableEmail domain = false
    /\ data = Some (toLowerCase email).
Proof.
  unfold validateEmail.
  destruct (EMAIL_REGEX_test email) eqn:Hre; [|done]. cbn [negb].
  destruct (EMAIL_REGEX_parts email Hre) as (localPart & domain & Hsplit & _).
  rewrite Hsplit. cbn [lookup list_lookup default from_option id].
  destruct (254 <? String.length email)%nat eqn:Hlen; [done|].
  destruct (64 <? String.length localPart)%nat eqn:Hlocal; [done|].
  destruct (isDisposableEmail domain) eqn:Hdisp; [done|].
  intros [= <-]. exists localPart, domain.
  apply Nat.ltb_ge in Hlen, Hlocal.
  rewrite trim_no_space by (by rewrite existsChar_toLowerCase, EMAIL_REGEX_no_space).
  done.
Qed.

End CredentialFacts.

(** An address that [EmailValidator.validate] accepts has one [@], at
    most 254 characters, a non-empty local part of at most 64, no
    white space, and a domain that is not on the list of disposable
    domains in any letter case; the data returned is its lower-case
    form, which the final [trim] never changes. *)
Theorem validateEmail_accepts_only_normal_addresses
    (email : string) (data : option string)
    (Haccepted : CredentialPolicy.validateEmail email = CredentialPolicy.Ok data) :
  data = Some (JS.toLowerCase email)
  /\ JS.existsChar JS.isWhiteSpace email = false
  /\ (String.length email <= 254)%nat
  /\ exists localPart domain,
       email = localPart +:+ "@" +:+ domain
       /\ localPart <> EmptyString
       /\ (String.length localPart <= 64)%nat
       /\ JS.existsChar (Ascii.eqb "@") localPart = false
       /\ JS.existsChar (Ascii.eqb "@") domain = false
       /\ JS.toLowerCase domain ∉ CredentialPolicy.disposableDomains.
Proof.
  apply validateEmail_inv in Haccepted
    as (localPart & domain & Hsplit & Hre & Hlen & Hlocal & Hdisp & ->).
  split; [done|]. split; [by apply EMAIL_REGEX_no_space|]. split; [done|].
  exists localPart, domain.
  pose proof (split_parts "@" email) as Hparts. rewrite Hsplit in Hparts.
  apply Forall_cons in Hparts as [Hl [Hd _]%Forall_cons].
  destruct (EMAIL_REGEX_parts email Hre) as (l' & d' & Hsplit' & _ & Hne & _).
  rewrite Hsplit in Hsplit'. injection Hsplit' as <- <-.
  split; [by apply split_two|]. repeat (split; [done|]).
  intros Hin%list_elem_of_In.
  unfold CredentialPolicy.isDisposableEmail in Hdisp.
  assert (existsb (String.eqb (JS.toLowerCase domain)) CredentialPolicy.disposableDomains
          = true); [|congruence].
  apply existsb_exists. exists (JS.toLowerCase domain). split; [done|apply String.eqb_refl].
Qed.

Lemma validateEmail_accepts_only_normal_addresses_witness :
  Some "test@example.com" = Some (JS.toLowerCase "Test@Example.com").
Proof.
  exact (proj1 (validateEmail_accepts_only_normal_addresses
                  "Test@Example.com" (Some "test@example.com") eq_refl)).
Defined.

(** The data that [EmailValidator.validate] returns is an address that
    it accepts, and it is returned unchanged: validating twice gives
    the same as validating once. *)
Theorem validateEmail_idempotent (email normalized : string)
    (Haccepted : CredentialPolicy.validateEmail email = CredentialPolicy.Ok (Some normalized)) :
  CredentialPolicy.validateEmail normalized = CredentialPolicy.Ok (Some normalized).
Proof.
  apply validateEmail_inv in Haccepted
    as (localPart & domain & Hsplit & Hre & Hlen & Hlocal & Hdisp & [= ->]).
  unfold CredentialPolicy.validateEmail.
  rewrite (EMAIL_REGEX_toLowerCase email Hre). cbn [negb].
  rewrite toLowerCase_length, (split_toLowerCase "@" email lowerChar_at), Hsplit.
  cbn [fmap list_fmap lookup list_lookup default from_option id].
  rewrite toLowerCase_length.
  assert ((254 <? String.length email)%nat = false) as -> by (apply Nat.ltb_ge; lia).
  assert ((64 <? String.length localPart)%nat = false) as -> by (apply Nat.ltb_ge; lia).
  unfold CredentialPolicy.isDisposableEmail in *.
  rewrite !toLowerCase_idempotent, Hdisp.
  rewrite trim_no_space; [done|].
  by rewrite existsChar_toLowerCase, EMAIL_REGEX_no_space.
Qed.

Lemma validateEmail_idempotent_witness :
  CredentialPolicy.validateEmail "test@example.com"
  = CredentialPolicy.Ok (Some "test@example.com").
Proof.
  exact (validateEmail_idempotent "Test@Example.com" "test@example.com" eq_refl).
Defined.

Section PasswordFacts.
Import JS CredentialPolicy.

Lemma existsChar_special_toLowerCase (s : string) :
  existsChar isSpecial (toLowerCase s) = existsChar isSpecial s.
Proof.
  induction s as [|c r IH]; [done|].
  simpl. by rewrite lowerChar_special, IH.
Qed.

(** No common password holds a symbol, in any letter case. *)
Lemma special_is_not_common (password : string) :
  existsChar isSpecial password = true -> isCommonPassword password = false.
Proof.
  intros Hspecial. rewrite <- existsChar_special_toLowerCase in Hspecial.
  unfold isCommonPassword.
  destruct (existsb _ commonPasswords) eqn:Hcommon; [|done].
  apply existsb_exists in Hcommon as (c & Hin & Heq%String.eqb_eq).
  rewrite Heq in Hspecial.
  unfold commonPasswords in Hin. simpl in Hin.
  repeat (destruct Hin as [<-|Hin]; [done|]). done.
Qed.

Lemma hasSequentialChars_unfold (a b c : ascii) (r : string) :
  hasSequentialChars (String a (String b (String c r)))
  = ((code b =? code a + 1) && (code c =? code b + 1))%N
    || hasSequentialChars (String b (String c r)).
Proof. reflexivity. Qed.

Lemma hasSequentialChars_cons (a : ascii) (r : string) :
  hasSequentialChars r = true -> hasSequentialChars (String a r) = true.
Proof.
  destruct r as [|b [|c r']]; try done.
  intros H. by rewrite hasSequentialChars_unfold, H, orb_true_r.
Qed.

Lemma passwordErrors_nil (password : string) :
  passwordErrors password = []
  <-> (String.length password <? 8)%nat = false
      /\ (128 <? String.length password)%nat = false
      /\ existsChar isLower password = true
      /\ existsChar isUpper password = true
      /\ existsChar isDigit password = true
      /\ existsChar isSpecial password = true
      /\ isCommonPassword password = false
      /\ hasSequentialChars password = false.
Proof.
  unfold passwordErrors.
  destruct (String.length password <? 8)%nat, (128 <? String.length password)%nat,
    (existsChar isLower password), (existsChar isUpper password),
    (existsChar isDigit password), (existsChar isSpecial password),
    (isCommonPassword password), (hasSequentialChars password);
    simpl; split; try done; intros (? & ? & ? & ? & ? & ? & ? & ?); done.
Qed.

End PasswordFacts.

(** [PasswordValidator.validate] accepts a password exactly when it
    has 8 to 128 characters, a lower-case letter, an upper-case
    letter, a digit and a symbol, and no run of three ascending
    characters.  The list of common passwords never decides: no entry
    of it holds a symbol. *)
Theorem validatePassword_accepts_iff (password : string) :
  CredentialPolicy.validatePassword password = CredentialPolicy.Ok None
  <-> (8 <= String.length password <= 128)%nat
      /\ JS.existsChar CredentialPolicy.isLower password = true
      /\ JS.existsChar CredentialPolicy.isUpper password = true
      /\ JS.existsChar CredentialPolicy.isDigit password = true
      /\ JS.existsChar CredentialPolicy.isSpecial password = true
      /\ CredentialPolicy.hasSequentialChars password = false.
Proof.
  unfold CredentialPolicy.validatePassword.
  assert (CredentialPolicy.passwordErrors password = []
          <-> match CredentialPolicy.passwordErrors password with
              | [] => CredentialPolicy.Ok None
              | errors => CredentialPolicy.Err (CredentialPolicy.joinWith "; " errors)
              end = CredentialPolicy.Ok None) as <-.
  { by destruct (CredentialPolicy.passwordErrors password). }
  rewrite passwordErrors_nil, !Nat.ltb_ge. split.
  - intros (? & ? & ? & ? & ? & ? & ? & ?). repeat split; done.
  - intros ([? ?] & ? & ? & ? & Hspecial & ?).
    repeat split; try done. by apply special_is_not_common.
Qed.

(** [hasSequentialChars] is true exactly for the passwords that hold
    three characters in a row whose codes go up by one each, and
    [PasswordValidator.validate] refuses every such password,
    whatever else it holds. *)
Theorem hasSequentialChars_spec (password : string) :
  (CredentialPolicy.hasSequentialChars password = true
   <-> exists before a b c after,
         password = before +:+ String a (String b (String c after))
         /\ JS.code b = (JS.code a + 1)%N /\ JS.code c = (JS.code b + 1)%N)
  /\ (CredentialPolicy.hasSequentialChars password = true ->
      exists message, CredentialPolicy.validatePassword password = CredentialPolicy.Err message).
Proof.
  split.
  - split.
    + induction password as [|a r IH]; [done|].
      destruct r as [|b [|c r']]; try done.
      rewrite hasSequentialChars_unfold.
      intros [[Hb Hc]%andb_true_iff|Hrest]%orb_true_iff.
      * apply N.eqb_eq in Hb, Hc. by exists EmptyString, a, b, c, r'.
      * destruct (IH Hrest) as (before & x & y & z & after & Heq & Hy & Hz).
        exists (String a before), x, y, z, after. by rewrite append_String, <- Heq.
    + intros (before & a & b & c & after & -> & Hb & Hc).
      induction before as [|x before IH].
      * rewrite append_empty, hasSequentialChars_unfold.
        apply N.eqb_eq in Hb, Hc. by rewrite Hb, Hc.
      * rewrite append_String. by apply hasSequentialChars_cons.
  - intros Hseq. unfold CredentialPolicy.validatePassword.
    destruct (CredentialPolicy.passwordErrors password) as [|e es] eqn:Herrors.
    + apply passwordErrors_nil in Herrors as (_ & _ & _ & _ & _ & _ & _ & Hno). congruence.
    + by eexists.
Qed.

(** ** The HTTP actions and [deleteAccount] of the Convex backend *)

Section ConvexFacts.
Import JS Http.

Lemma firstUserByEmail_created (now : Z) (n e p : string) (db : Convex.Db) :
  Convex.firstUserByEmail e db = None ->
  Convex.firstUserByEmail e (snd (Convex.createUser now n e p db))
  = Some {| Convex.user_id := Convex.nextId db; Convex.user_name := n;
            Convex.user_email := e; Convex.emailVerificationTime := None |}.
Proof.
  unfold Convex.firstUserByEmail. intros Hnone. simpl.
  rewrite (find_app_None _ _ _ Hnone). simpl. by rewrite String.eqb_refl.
Qed.

End ConvexFacts.

(** On the HTTP actions of the Convex backend, after a registration
    for an address that no account has, a second registration with
    the identical address is answered 409 and writes nothing, and a
    login with that address is answered 200 with the name and address
    of the account for every non-empty password, and appends one
    [user_login] entry to the log. *)
Theorem convex_http_register_then_login
    (now now' now'' : Z) (n e p n' p' q : string) (db : Convex.Db)
    (Hn : n <> EmptyString) (He : e <> EmptyString) (Hp : p <> EmptyString)
    (Hn' : n' <> EmptyString) (Hp' : p' <> EmptyString) (Hq : q <> EmptyString)
    (Hfree : Convex.firstUserByEmail e db = None) :
  exists db1,
    ConvexHttp.register now
      (Some (JS.JObj [("name", JS.JStr n); ("email", JS.JStr e); ("password", JS.JStr p)])) db
    = Some ({| Http.status := 201;
               Http.body := JS.JObj [("success", JS.JBool true);
                                     ("userId", ConvexHttp.idValue (Convex.nextId db));
                                     ("message", JS.JStr "User created successfully")] |}, db1)
    /\ ConvexHttp.register now'
         (Some (JS.JObj [("name", JS.JStr n'); ("email", JS.JStr e); ("password", JS.JStr p')]))
         db1
       = Some (Http.errorResponse 409 "User with this email already exists", db1)
    /\ exists db2 entry,
         ConvexHttp.login now''
           (Some (JS.JObj [("email", JS.JStr e); ("password", JS.JStr q)])) db1
         = Some ({| Http.status := 200;
                    Http.body :=
                      JS.JObj [("success", JS.JBool true);
                               ("userId", ConvexHttp.idValue (Convex.nextId db));
                               ("user", JS.JObj [("name", JS.JStr n); ("email", JS.JStr e)]);
                               ("message", JS.JStr "Login successful")] |}, db2)
         /\ Convex.users db2 = Convex.users db1
         /\ Convex.authLogs db2 = (Convex.authLogs db1 ++ [entry])%list
         /\ Convex.action entry = "user_login"
         /\ Convex.userId entry = Some (Convex.nextId db).
Proof.
  pose proof (firstUserByEmail_created now n e p db Hfree) as Hfound.
  apply String.eqb_neq in Hn, He, Hp, Hn', Hp', Hq.
  eexists. split; [|split].
  - unfold ConvexHttp.register, Convex.checkUserExists.
    cbn [JS.entries JS.getProp JS.truthy String.eqb Ascii.eqb Bool.eqb].
    rewrite Hn, He, Hp, Hfree. cbn [negb orb Z.ltb Z.compare].
    reflexivity.
  - unfold ConvexHttp.register, Convex.checkUserExists.
    cbn [JS.entries JS.getProp JS.truthy String.eqb Ascii.eqb Bool.eqb].
    rewrite Hn', He, Hp'. cbn [negb orb].
    cbn [Convex.createUser Convex.insertUser Convex.insertProfile Convex.insertAuthLog
         snd fst] in Hfound |- *.
    by rewrite Hfound.
  - eexists _, _.
    unfold ConvexHttp.login, Convex.authenticateUser.
    cbn [JS.entries JS.getProp JS.truthy String.eqb Ascii.eqb Bool.eqb].
    rewrite He, Hq. cbn [negb orb].
    cbn [Convex.createUser Convex.insertUser Convex.insertProfile Convex.insertAuthLog
         snd fst] in Hfound |- *.
    rewrite Hfound. split; [reflexivity|]. by repeat split.
Qed.

Lemma convex_http_register_then_login_witness :
  exists db1,
    ConvexHttp.register 1000
      (Some (JS.JObj [("name", JS.JStr "Test User"); ("email", JS.JStr "test@example.com");
                      ("password", JS.JStr "testpass123")])) Convex.emptyDb
    = Some ({| Http.status := 201;
               Http.body := JS.JObj [("success", JS.JBool true);
                                     ("userId", ConvexHttp.idValue 0%nat);
                                     ("message", JS.JStr "User created successfully")] |}, db1).
Proof.
  destruct (convex_http_register_then_login 1000 2000 3000 "Test User" "test@example.com"
              "testpass123" "Other" "otherpass" "wrongpass" Convex.emptyDb)
    as (db1 & H & _); try discriminate; try reflexivity.
  by exists db1.
Defined.

(** The HTTP actions of the Convex backend write only on success: a
    registration not answered 201 and a login not answered 200 leave
    the database as it is; in particular a failed login is not
    logged. *)
Theorem convex_http_failures_write_nothing
    (now : Z) (body : option JS.json) (db db' : Convex.Db) (response : Http.Response) :
  (ConvexHttp.register now body db = Some (response, db') ->
   Http.status response <> 201 -> db' = db)
  /\ (ConvexHttp.login now body db = Some (response, db') ->
      Http.status response <> 200 -> db' = db).
Proof.
  split.
  - unfold ConvexHttp.register.
    repeat match goal with
           | |- context [Convex.createUser ?a ?b ?c ?d ?e] =>
               destruct (Convex.createUser a b c d e)
           | |- context [match ?x with _ => _ end] => destruct x
           end; try done; by intros [= <- <-].
  - unfold ConvexHttp.login.
    repeat match goal with
           | |- context [match ?x with _ => _ end] => destruct x
           end; try done; by intros [= <- <-].
Qed.

Section DeleteAccountFacts.


End DeleteAccountFacts.

